(** * Seq2SlateTrainer (ml/rl/training/ranking/seq2slate_trainer.py)

    A shallow embedding of the REINFORCE trainer with a learned baseline,
    and the properties of its [train] method.

    Tensor entries are idealised as real numbers.  The two networks, the
    Adam update rule and reverse-mode differentiation are collaborators of
    the trainer: they are taken as an interface ([TorchBackend], [network])
    and every theorem holds for all of their implementations. *)

From Stdlib Require Import Reals Lra Lia ZArith Bool List FunctionalExtensionality.
From stdpp Require Import strings gmap.
Import ListNotations.

Local Open Scope R_scope.

(** ** Python exceptions and the outcome of a call *)

Inductive error :=
  | AssertionError
  | TypeError
  | RuntimeError
  | ZeroDivisionError
  | IndexError.

Inductive outcome (A : Type) :=
  | Raise (e : error)
  | Return (a : A).
Arguments Raise {A} e.
Arguments Return {A} a.

Definition is_return {A} (o : outcome A) : bool :=
  match o with Return _ => true | Raise _ => false end.

(** ** Shapes and broadcasting (torch semantics) *)

Module Shape.

Definition numel (s : list nat) : nat := fold_right Nat.mul 1%nat s.

Definition eqb (s t : list nat) : bool :=
  bool_decide (s = t).

(** Dimensions are matched from the last one backwards; two sizes are
    compatible when they are equal or one of them is 1. *)
Definition broadcast_dim (d e : nat) : option nat :=
  if (d =? e)%nat then Some d
  else if (d =? 1)%nat then Some e
  else if (e =? 1)%nat then Some d
  else None.

Fixpoint broadcast_rev (a b : list nat) : option (list nat) :=
  match a, b with
  | [], _ => Some b
  | _, [] => Some a
  | d :: a', e :: b' =>
      match broadcast_dim d e, broadcast_rev a' b' with
      | Some x, Some r => Some (x :: r)
      | _, _ => None
      end
  end.

Definition broadcast (a b : list nat) : option (list nat) :=
  option_map (@rev nat) (broadcast_rev (rev a) (rev b)).

(** A shape of lower rank is read with leading dimensions of size 1. *)
Definition pad (rank : nat) (s : list nat) : list nat :=
  repeat 1%nat (rank - length s) ++ s.

(** [squeeze]: every dimension of size 1 is removed. *)
Definition squeeze (s : list nat) : list nat :=
  List.filter (fun d => negb (d =? 1)%nat) s.

Fixpoint chunks (k n : nat) (l : list R) : list (list R) :=
  match n with
  | O => []
  | S n' => firstn k l :: chunks k n' (skipn k l)
  end.

(** Row-major data of shape [s] expanded to shape [t] (same rank). *)
Fixpoint expand (s t : list nat) (l : list R) : list R :=
  match s, t with
  | d :: s', e :: t' =>
      if (d =? e)%nat
      then concat (map (expand s' t') (chunks (numel s') d l))
      else concat (repeat (expand s' t' l) e)
  | _, _ => l
  end.

Definition expand_to (s t : list nat) (l : list R) : list R :=
  expand (pad (length t) s) t l.

End Shape.

Fixpoint zip_with_R (f : R -> R -> R) (l k : list R) : list R :=
  match l, k with
  | x :: l', y :: k' => f x y :: zip_with_R f l' k'
  | _, _ => []
  end.

Definition sum_list (l : list R) : R := fold_right Rplus 0 l.

(** The REINFORCE loss of each episode, from its importance weight,
    log-probability, reward and baseline. *)
Fixpoint episode_losses (wt lp r b : list R) : list R :=
  match wt, lp, r, b with
  | w :: wt', l :: lp', x :: r', y :: b' =>
      (- w * l * (x - y)) :: episode_losses wt' lp' r' b'
  | _, _, _, _ => []
  end.

Definition mean (l : list R) : R := sum_list l / INR (length l).

(** ** The torch collaborators

    [pval] is a parameter tensor (its [.data] and its [.grad] have this
    type), [adam_update lr amsgrad slot p g] is one Adam update of the
    parameter value [p] with gradient [g], and [autograd f theta] is the
    gradient, at the parameter values [theta], of a scalar whose dependence
    on the parameters is [f]: one entry per leaf of the graph. *)

Class TorchBackend := {
  pval : Type;
  zeros_like : pval -> pval;
  grad_add : pval -> pval -> pval;
  adam_slot : Type;
  adam_update : R -> bool -> option adam_slot -> pval -> pval -> adam_slot * pval;
  autograd : (gmap positive pval -> list R) -> gmap positive pval -> gmap positive pval;
  ranking_features : Type
}.

Section Trainer.

Context `{TB : TorchBackend}.

(** ** Tensors

    [data] is row-major; [graph] records how the entries depend on the
    parameters (the autograd graph); a detached tensor has a constant
    graph. *)

Record tensor := Tensor {
  shape : list nat;
  data : list R;
  requires_grad : bool;
  graph : gmap positive pval -> list R
}.

Definition wf_tensor (t : tensor) : Prop :=
  length (data t) = Shape.numel (shape t).

(** A tensor of plain data: it does not depend on any parameter. *)
Definition leaf (s : list nat) (l : list R) : tensor :=
  Tensor s l false (fun _ => l).

(** [torch.FloatTensor(l)]: a one-dimensional leaf. *)
Definition FloatTensor (l : list R) : tensor := leaf [length l] l.

Definition detach (t : tensor) : tensor :=
  Tensor (shape t) (data t) false (fun _ => data t).

Definition squeeze (t : tensor) : tensor :=
  Tensor (Shape.squeeze (shape t)) (data t) (requires_grad t) (graph t).

(** [.cuda()] moves a tensor to another device; values do not change. *)
Definition cuda (t : tensor) : tensor := t.

Definition pointwise (f : R -> R) (t : tensor) : tensor :=
  Tensor (shape t) (map f (data t)) (requires_grad t)
         (fun th => map f (graph t th)).

Definition torch_exp : tensor -> tensor := pointwise exp.
Definition neg : tensor -> tensor := pointwise Ropp.
Definition pow2 : tensor -> tensor := pointwise (fun x => x ^ 2).

(** A Python float times a tensor. *)
Definition scale (c : R) : tensor -> tensor := pointwise (Rmult c).

(** Binary element-wise operators broadcast their operands and raise
    RuntimeError when the shapes are not compatible. *)
Definition binop (f : R -> R -> R) (a b : tensor) : outcome tensor :=
  match Shape.broadcast (shape a) (shape b) with
  | None => Raise RuntimeError
  | Some s =>
      Return (Tensor s
        (zip_with_R f (Shape.expand_to (shape a) s (data a))
                      (Shape.expand_to (shape b) s (data b)))
        (requires_grad a || requires_grad b)
        (fun th => zip_with_R f (Shape.expand_to (shape a) s (graph a th))
                                (Shape.expand_to (shape b) s (graph b th))))
  end.

Definition sub := binop Rminus.
Definition mul := binop Rmult.
Definition div := binop Rdiv.

(** [torch.sum]: a 0-dimensional tensor. *)
Definition torch_sum (t : tensor) : tensor :=
  Tensor [] [sum_list (data t)] (requires_grad t)
         (fun th => [sum_list (graph t th)]).

(** [.detach().cpu().numpy()]: the plain array of values. *)
Record ndarray := NdArray { nd_shape : list nat; nd_data : list R }.

Definition numpy (t : tensor) : ndarray := NdArray (shape t) (data t).

(** ** Batches *)

(** Modelled from the spec: ml/rl/types.py is not among the sources.  The
    record has the fields [train] reads ([state_float_features] is
    [state.float_features]); [features] stands for everything else the
    networks consume (source and target sequences, masks). *)
Record PreprocessedRankingInput := {
  state_float_features : tensor;
  slate_reward : option tensor;
  tgt_out_probs : option tensor;
  features : ranking_features
}.

(** Modelled from the spec: the objects that can be passed where a
    [PreprocessedRankingInput] or a [PreprocessedTrainingBatch] is expected;
    [train] asserts their types. *)
Inductive py_input :=
  | RankingInput (i : PreprocessedRankingInput)
  | OtherInput.

(** Modelled from the spec: see [py_input]. *)
Inductive py_batch :=
  | PreprocessedTrainingBatch (training_input : py_input)
  | OtherBatch.

(** ** Networks *)

(** Modelled from the spec: ml/rl/models/seq2slate.py is not among the
    sources.  A network owns parameter objects (their identities are
    [net_parameters]) and computes its output from the current parameter
    values and the input; for the policy network this is the [log_probs]
    of its LOG_PROB_MODE.  Calling it yields a tensor whose graph is that
    very dependence on the parameters. *)

Record net_output := {
  out_shape : list nat;
  out_data : list R;
  out_requires_grad : bool
}.

Record network := {
  net_parameters : list positive;
  net_forward : gmap positive pval -> PreprocessedRankingInput -> net_output
}.

Definition call_net (net : network) (theta : gmap positive pval)
    (input : PreprocessedRankingInput) : tensor :=
  let o := net_forward net theta input in
  Tensor (out_shape o) (out_data o) (out_requires_grad o)
         (fun th => out_data (net_forward net th input)).

(** ** Optimizers and the trainer object *)

Record optimizer := {
  opt_params : list positive;
  opt_lr : R;
  opt_amsgrad : bool;
  opt_state : gmap positive adam_slot
}.

Definition Adam (params : list positive) (lr : R) (amsgrad : bool) : optimizer :=
  {| opt_params := params; opt_lr := lr; opt_amsgrad := amsgrad; opt_state := ∅ |}.

Record Seq2SlateTrainer := {
  on_policy : bool;
  use_gpu : bool;
  seq2slate_net : network;
  baseline_net : network;
  minibatch_size : Z;
  minibatch : Z;
  rl_opt : optimizer;
  baseline_opt : optimizer
}.

Definition init (seq2slate_net0 baseline_net0 : network) (parameters_on_policy : bool)
    (minibatch_size0 : Z) (use_gpu0 : bool) : Seq2SlateTrainer :=
  {| on_policy := parameters_on_policy;
     use_gpu := use_gpu0;
     seq2slate_net := seq2slate_net0;
     baseline_net := baseline_net0;
     minibatch_size := minibatch_size0;
     minibatch := 0%Z;
     rl_opt := Adam (net_parameters seq2slate_net0) (1 / 1000) true;
     baseline_opt := Adam (net_parameters baseline_net0) (1 / 1000) true |}.

Definition warm_start_components : list string :=
  ["seq2slate_net"%string; "baseline_net"%string].

(** ** The mutable world

    The trainer object, the parameter objects shared by networks and
    optimizers ([param_data] is [p.data], [param_grad] is [p.grad], absent
    when it is None), and the calls made to the optimizers and the logger
    so far. *)

Inductive opt_id := RlOpt | BaselineOpt.

Inductive event :=
  | EvZeroGrad (o : opt_id)
  | EvBackward (loss : list R)
  | EvStep (o : opt_id)
  | EvLog (step : Z) (rl_loss baseline_loss : ndarray).

Record world := {
  self : Seq2SlateTrainer;
  param_data : gmap positive pval;
  param_grad : gmap positive pval;
  trace : list event
}.

Definition get_opt (o : opt_id) (s : Seq2SlateTrainer) : optimizer :=
  match o with RlOpt => rl_opt s | BaselineOpt => baseline_opt s end.

Definition set_opt_state (o : opt_id) (st : gmap positive adam_slot)
    (s : Seq2SlateTrainer) : Seq2SlateTrainer :=
  let upd (x : optimizer) :=
    {| opt_params := opt_params x; opt_lr := opt_lr x;
       opt_amsgrad := opt_amsgrad x; opt_state := st |} in
  {| on_policy := on_policy s; use_gpu := use_gpu s;
     seq2slate_net := seq2slate_net s; baseline_net := baseline_net s;
     minibatch_size := minibatch_size s; minibatch := minibatch s;
     rl_opt := match o with RlOpt => upd (rl_opt s) | BaselineOpt => rl_opt s end;
     baseline_opt :=
       match o with BaselineOpt => upd (baseline_opt s) | RlOpt => baseline_opt s end |}.

Definition set_minibatch (n : Z) (s : Seq2SlateTrainer) : Seq2SlateTrainer :=
  {| on_policy := on_policy s; use_gpu := use_gpu s;
     seq2slate_net := seq2slate_net s; baseline_net := baseline_net s;
     minibatch_size := minibatch_size s; minibatch := n;
     rl_opt := rl_opt s; baseline_opt := baseline_opt s |}.

(** ** State and exception monad: an exception keeps the mutations made
    before it was raised. *)

Definition M (A : Type) : Type := world -> outcome A * world.

Definition ret {A} (a : A) : M A := fun w => (Return a, w).

Definition raise {A} (e : error) : M A := fun w => (Raise e, w).

Definition bind {A B} (m : M A) (k : A -> M B) : M B :=
  fun w =>
    match m w with
    | (Return a, w') => k a w'
    | (Raise e, w') => (Raise e, w')
    end.

Notation "x <- m ;; k" := (bind m (fun x => k))
  (at level 100, m at next level, right associativity).
Notation "m ;;; k" := (bind m (fun _ => k))
  (at level 100, right associativity).

Definition lift {A} (o : outcome A) : M A := fun w => (o, w).

Definition assert (b : bool) : M unit :=
  if b then ret tt else raise AssertionError.

Definition get_self : M Seq2SlateTrainer := fun w => (Return (self w), w).

Definition get_params : M (gmap positive pval) := fun w => (Return (param_data w), w).

Definition modify (f : world -> world) : M unit := fun w => (Return tt, f w).

Definition logged (e : event) (w : world) : world :=
  {| self := self w; param_data := param_data w;
     param_grad := param_grad w; trace := trace w ++ [e] |}.

Definition emit (e : event) : M unit := modify (logged e).

(** [optimizer.zero_grad()]: the gradient buffers of the optimizer's own
    parameters are zeroed where they exist. *)
Definition zeroed (o : opt_id) (w : world) : world :=
  {| self := self w; param_data := param_data w;
     param_grad := fold_right (alter zeros_like) (param_grad w)
                     (opt_params (get_opt o (self w)));
     trace := trace w ++ [EvZeroGrad o] |}.

Definition zero_grad (o : opt_id) : M unit := modify (zeroed o).

(** [loss.backward()]: gradients are accumulated into the buffers of the
    leaves of the graph of [loss]; a loss that does not require grad has
    no graph to differentiate. *)
Definition accumulated (loss : tensor) (w : world) : world :=
  {| self := self w; param_data := param_data w;
     param_grad :=
       union_with (fun old new => Some (grad_add old new))
         (param_grad w) (autograd (graph loss) (param_data w));
     trace := trace w ++ [EvBackward (data loss)] |}.

Definition backward (loss : tensor) : M unit :=
  if requires_grad loss then modify (accumulated loss) else raise RuntimeError.

(** [optimizer.step()]: every parameter of the optimizer that has a
    gradient is updated from it. *)
Definition step_param (lr : R) (amsgrad : bool) (grads : gmap positive pval)
    (acc : gmap positive pval * gmap positive adam_slot) (p : positive)
    : gmap positive pval * gmap positive adam_slot :=
  match grads !! p, acc.1 !! p with
  | Some g, Some v =>
      let r := adam_update lr amsgrad (acc.2 !! p) v g in
      (<[p := r.2]> acc.1, <[p := r.1]> acc.2)
  | _, _ => acc
  end.

Definition stepped (o : opt_id) (w : world) : world :=
  let opt := get_opt o (self w) in
  let r := fold_left (step_param (opt_lr opt) (opt_amsgrad opt) (param_grad w))
             (opt_params opt) (param_data w, opt_state opt) in
  {| self := set_opt_state o r.2 (self w); param_data := r.1;
     param_grad := param_grad w; trace := trace w ++ [EvStep o] |}.

Definition opt_step (o : opt_id) : M unit := modify (stepped o).

(** [self.minibatch += 1] *)
Definition incremented (w : world) : world :=
  {| self := set_minibatch (minibatch (self w) + 1)%Z (self w);
     param_data := param_data w; param_grad := param_grad w;
     trace := trace w |}.

Definition incr_minibatch : M unit := modify incremented.

(** [1.0 / batch_size] on a Python int. *)
Definition float_div_int (n : nat) : outcome R :=
  match n with
  | O => Raise ZeroDivisionError
  | S _ => Return (1 / INR n)
  end.

(** [t.shape[0]] *)
Definition shape0 (t : tensor) : outcome nat :=
  match shape t with
  | [] => Raise IndexError
  | n :: _ => Return n
  end.

(** ** [Seq2SlateTrainer.train] *)

(** Lines 53-57, "Train baseline". Returns [b] and [baseline_loss]. *)
Definition train_baseline (training_input : PreprocessedRankingInput)
    (reward : tensor) (batch_size : nat) : M (tensor * tensor) :=
  s <- get_self ;;
  theta <- get_params ;;
  let b := squeeze (call_net (baseline_net s) theta training_input) in
  c <- lift (float_div_int batch_size) ;;
  d <- lift (sub b reward) ;;
  let baseline_loss := scale c (torch_sum (pow2 d)) in
  zero_grad BaselineOpt ;;;
  backward baseline_loss ;;;
  opt_step BaselineOpt ;;;
  ret (b, baseline_loss).

(** Lines 66-73: the importance-sampling weights. *)
Definition importance_sampling (s : Seq2SlateTrainer)
    (training_input : PreprocessedRankingInput) (log_probs : tensor)
    : outcome tensor :=
  if negb (on_policy s) then
    match tgt_out_probs training_input with
    | None => Raise TypeError
    | Some p => div (torch_exp (detach log_probs)) p
    end
  else
    let w := FloatTensor [1] in
    Return (if use_gpu s then cuda w else w).

(** Lines 61-81, "Train Seq2Slate using REINFORCE". Takes the [b] of the
    baseline phase; returns the detached [b], [log_probs] and [rl_loss]. *)
Definition train_seq2slate (training_input : PreprocessedRankingInput)
    (reward b : tensor) (batch_size : nat) : M (tensor * tensor * tensor) :=
  s <- get_self ;;
  theta <- get_params ;;
  let log_probs := call_net (seq2slate_net s) theta training_input in
  let b := detach b in
  assert (Shape.eqb (shape b) (shape reward)
          && Shape.eqb (shape reward) (shape log_probs)) ;;;
  assert (negb (requires_grad b) && requires_grad log_probs) ;;;
  w <- lift (importance_sampling s training_input log_probs) ;;
  wl <- lift (mul (neg w) log_probs) ;;
  adv <- lift (sub reward b) ;;
  batch_loss <- lift (mul wl adv) ;;
  c <- lift (float_div_int batch_size) ;;
  let rl_loss := scale c (torch_sum batch_loss) in
  zero_grad RlOpt ;;;
  backward rl_loss ;;;
  opt_step RlOpt ;;;
  ret (b, log_probs, rl_loss).

(** Lines 42-96.  The two type assertions, then the reward and the batch
    size, then the two phases and the report.  The wall-clock readings
    [t1] and [t2] only enter the log message and are left out of
    [EvLog]. *)
Definition train (training_batch : py_batch)
    : M (tensor * tensor * ndarray * ndarray) :=
  training_input <-
    match training_batch with
    | PreprocessedTrainingBatch ti => ret ti
    | OtherBatch => raise AssertionError
    end ;;
  training_input <-
    match training_input with
    | RankingInput i => ret i
    | OtherInput => raise AssertionError
    end ;;
  let reward := slate_reward training_input in
  batch_size <- lift (shape0 (state_float_features training_input)) ;;
  reward <-
    match reward with
    | Some r => ret r
    | None => raise AssertionError
    end ;;
  r1 <- train_baseline training_input reward batch_size ;;
  let '(b, baseline_loss) := r1 in
  r2 <- train_seq2slate training_input reward b batch_size ;;
  let '(b, log_probs, rl_loss) := r2 in
  let rl_loss := numpy (detach rl_loss) in
  let baseline_loss := numpy (detach baseline_loss) in
  advantage <- lift (sub reward b) ;;
  let log_probs := detach log_probs in
  incr_minibatch ;;;
  s <- get_self ;;
  emit (EvLog (minibatch s) rl_loss baseline_loss) ;;;
  ret (log_probs, advantage, rl_loss, baseline_loss).

(** How many times [o.step()] has been called along a trace. *)
Definition is_step (o : opt_id) (e : event) : bool :=
  match e, o with
  | EvStep RlOpt, RlOpt => true
  | EvStep BaselineOpt, BaselineOpt => true
  | _, _ => false
  end.

Definition steps (o : opt_id) (tr : list event) : nat :=
  length (List.filter (is_step o) tr).

(** The same input with other behavior probabilities. *)
Definition with_tgt_out_probs (q : option tensor) (i : PreprocessedRankingInput)
    : PreprocessedRankingInput :=
  {| state_float_features := state_float_features i;
     slate_reward := slate_reward i;
     tgt_out_probs := q;
     features := features i |}.

(** The worlds a trainer can be in: just constructed, over any parameter
    values, or after a call of [train] or its baseline phase, completed or
    not. *)
Inductive reachable : world -> Prop :=
  | reach_init sn bn onp mbs gpu theta grads :
      reachable {| self := init sn bn onp mbs gpu; param_data := theta;
                   param_grad := grads; trace := [] |}
  | reach_train batch w :
      reachable w -> reachable (snd (train batch w))
  | reach_baseline i r n w :
      reachable w -> reachable (snd (train_baseline i r n w)).

(** What a call returned; a call that raised has no result. *)
Definition no_result : tensor * tensor * ndarray * ndarray :=
  (leaf [] [], leaf [] [], NdArray [] [], NdArray [] []).

Definition result (o : outcome (tensor * tensor * ndarray * ndarray) * world)
    : tensor * tensor * ndarray * ndarray :=
  match fst o with
  | Return a => a
  | Raise _ => no_result
  end.

(** Each optimizer holds the parameters of its own network. *)
Definition bound (s : Seq2SlateTrainer) : Prop :=
  opt_params (rl_opt s) = net_parameters (seq2slate_net s) /\
  opt_params (baseline_opt s) = net_parameters (baseline_net s).

(** The world after [opt.zero_grad(); loss.backward(); opt.step()]. *)
Definition after_update (o : opt_id) (loss : tensor) (w : world) : world :=
  stepped o (accumulated loss (zeroed o w)).

(** The value [b] that a call of [train] entered in world [w] computes. *)
Definition baseline_value (w : world) (i : PreprocessedRankingInput) : tensor :=
  squeeze (call_net (baseline_net (self w)) (param_data w) i).

End Trainer.

(** ** A small instance, on which the properties below are exercised

    Parameters are single reals; the optimizer is plain gradient descent
    that counts its steps; the gradient is a central difference, which is
    exact for the losses of the two networks below (quadratic and linear
    in their parameter).  The baseline network has one parameter and
    predicts it for every episode, with output shape (batch, 1); the policy
    network has one parameter and returns it as the log-probability of
    every episode. *)

Module Demo.

#[export] Instance backend : TorchBackend := {|
  pval := R;
  zeros_like := fun _ => 0;
  grad_add := Rplus;
  adam_slot := nat;
  adam_update := fun lr _ s p g => (S (default O s), p - lr * g);
  autograd := fun f th =>
    map_imap (fun p v =>
      Some ((sum_list (f (<[p := v + 1]> th))
             - sum_list (f (<[p := v - 1]> th))) / 2)) th;
  ranking_features := unit
|}.

Definition batch_dim (i : PreprocessedRankingInput) : nat :=
  match shape (state_float_features i) with
  | n :: _ => n
  | [] => O
  end.

Definition baseline : network := {|
  net_parameters := [1%positive];
  net_forward := fun th i =>
    {| out_shape := [batch_dim i; 1%nat];
       out_data := repeat (default 0 (th !! 1%positive)) (batch_dim i);
       out_requires_grad := true |}
|}.

Definition policy : network := {|
  net_parameters := [2%positive];
  net_forward := fun th i =>
    {| out_shape := Shape.squeeze [batch_dim i];
       out_data := repeat (default 0 (th !! 2%positive)) (batch_dim i);
       out_requires_grad := true |}
|}.

Definition start (parameters_on_policy : bool) (b0 lp0 : R) : world :=
  {| self := init policy baseline parameters_on_policy 2 false;
     param_data := {[ 1%positive := b0; 2%positive := lp0 ]};
     param_grad := ∅;
     trace := [] |}.

Definition input2 (probs : option tensor) : PreprocessedRankingInput :=
  {| state_float_features := leaf [2%nat; 1%nat] [0; 0];
     slate_reward := Some (leaf [2%nat] [1; 3]);
     tgt_out_probs := probs;
     features := tt |}.

Definition probs2 : tensor := leaf [2%nat] [1 / 4; 1 / 2].

Definition batch2 (probs : option tensor) : py_batch :=
  PreprocessedTrainingBatch (RankingInput (input2 probs)).

(** One episode, every tensor 0-dimensional. *)
Definition input1 : PreprocessedRankingInput :=
  {| state_float_features := leaf [1%nat; 1%nat] [0];
     slate_reward := Some (leaf [] [3]);
     tgt_out_probs := Some (leaf [] [1 / 4]);
     features := tt |}.

Definition batch1 : py_batch := PreprocessedTrainingBatch (RankingInput input1).

(** Two episodes but a reward of length 1. *)
Definition input_short_reward : PreprocessedRankingInput :=
  {| state_float_features := leaf [2%nat; 1%nat] [0; 0];
     slate_reward := Some (leaf [1%nat] [1]);
     tgt_out_probs := Some probs2;
     features := tt |}.

Definition input_no_reward : PreprocessedRankingInput :=
  {| state_float_features := leaf [2%nat; 1%nat] [0; 0];
     slate_reward := None;
     tgt_out_probs := Some probs2;
     features := tt |}.

(** The runs used below: an off-policy call on one episode, and off- and
    on-policy calls on two episodes. *)
Definition start1 : world := start false 0 (ln (1 / 2)).

Abbreviation run1 :=
  (train (PreprocessedTrainingBatch (RankingInput input1)) start1).

Definition start2 (parameters_on_policy : bool) : world :=
  start parameters_on_policy 0 (-1).

Abbreviation run2 :=
  (train (PreprocessedTrainingBatch (RankingInput (input2 (Some probs2))))
     (start2 false)).

End Demo.

(** ** Observations on worlds and trainers *)

Section Observations.

Context `{TB : TorchBackend}.

(** How many records the logger has received along a trace. *)
Definition is_log (e : event) : bool :=
  match e with
  | EvLog _ _ _ => true
  | _ => false
  end.

Definition logs (tr : list event) : nat := length (List.filter is_log tr).

(** What [__init__] fixes of an optimizer, and of the trainer: everything
    but the step counter and the Adam state. *)
Definition hyper (o : optimizer) : list positive * R * bool :=
  (opt_params o, opt_lr o, opt_amsgrad o).

Definition config (s : Seq2SlateTrainer) :=
  (on_policy s, use_gpu s, seq2slate_net s, baseline_net s, minibatch_size s,
   hyper (rl_opt s), hyper (baseline_opt s)).

(** The same world with another [minibatch_size] given to [__init__]. *)
Definition with_minibatch_size (m : Z) (w : world) : world :=
  {| self :=
       {| on_policy := on_policy (self w); use_gpu := use_gpu (self w);
          seq2slate_net := seq2slate_net (self w);
          baseline_net := baseline_net (self w);
          minibatch_size := m; minibatch := minibatch (self w);
          rl_opt := rl_opt (self w); baseline_opt := baseline_opt (self w) |};
     param_data := param_data w; param_grad := param_grad w;
     trace := trace w |}.

End Observations.

(** ** Further inputs and networks for the instance: an empty batch,
    state features without a batch dimension, rewards of other shapes, and
    networks whose output does not require grad. *)

Module Edge.

Import Demo.

Definition input_empty : PreprocessedRankingInput :=
  {| state_float_features := leaf [0%nat; 1%nat] [];
     slate_reward := Some (leaf [0%nat] []);
     tgt_out_probs := None;
     features := tt |}.

Definition input_scalar_features : PreprocessedRankingInput :=
  {| state_float_features := leaf [] [0];
     slate_reward := None;
     tgt_out_probs := None;
     features := tt |}.

(** Two episodes, three rewards. *)
Definition input_long_reward : PreprocessedRankingInput :=
  {| state_float_features := leaf [2%nat; 1%nat] [0; 0];
     slate_reward := Some (leaf [3%nat] [1; 2; 3]);
     tgt_out_probs := None;
     features := tt |}.

(** Two episodes, the reward as a column of shape (2, 1). *)
Definition input_column_reward : PreprocessedRankingInput :=
  {| state_float_features := leaf [2%nat; 1%nat] [0; 0];
     slate_reward := Some (leaf [2%nat; 1%nat] [1; 3]);
     tgt_out_probs := None;
     features := tt |}.

Definition frozen_baseline : network := {|
  net_parameters := [1%positive];
  net_forward := fun th i =>
    {| out_shape := [batch_dim i; 1%nat];
       out_data := repeat (default 0 (th !! 1%positive)) (batch_dim i);
       out_requires_grad := false |}
|}.

Definition frozen_policy : network := {|
  net_parameters := [2%positive];
  net_forward := fun th i =>
    {| out_shape := Shape.squeeze [batch_dim i];
       out_data := repeat (default 0 (th !! 2%positive)) (batch_dim i);
       out_requires_grad := false |}
|}.

(** Behavior probabilities for three episodes. *)
Definition probs3 : tensor := leaf [3%nat] [1 / 4; 1 / 2; 1 / 4].

Definition start_with (policy_net baseline_network : network) : world :=
  {| self := init policy_net baseline_network true 2 false;
     param_data := {[ 1%positive := 0; 2%positive := -1; 3%positive := 7 ]};
     param_grad := ∅;
     trace := [] |}.

End Edge.

(** ** One episode in the shapes of the data model: state features of
    shape (1, 1), reward and behavior probability of shape (1,), a baseline
    network with output of shape (1, 1) and a policy network whose
    log-probabilities have shape (1,), equal to [ln(1/2)]. *)

Module Single.

Import Demo.

Definition policy : network := {|
  net_parameters := [2%positive];
  net_forward := fun th i =>
    {| out_shape := [batch_dim i];
       out_data := repeat (default 0 (th !! 2%positive)) (batch_dim i);
       out_requires_grad := true |}
|}.

Definition input : PreprocessedRankingInput :=
  {| state_float_features := leaf [1%nat; 1%nat] [0];
     slate_reward := Some (leaf [1%nat] [3]);
     tgt_out_probs := Some (leaf [1%nat] [1 / 4]);
     features := tt |}.

Definition start : world :=
  {| self := init policy baseline false 1 false;
     param_data := {[ 1%positive := 0; 2%positive := ln (1 / 2) ]};
     param_grad := ∅;
     trace := [] |}.

Abbreviation run :=
  (train (PreprocessedTrainingBatch (RankingInput input)) start).

End Single.

(** ** Shapes: broadcasting a shape with itself, squeezing *)

Lemma broadcast_dim_same d : Shape.broadcast_dim d d = Some d.
Proof. unfold Shape.broadcast_dim. now rewrite Nat.eqb_refl. Qed.

Lemma broadcast_rev_same s : Shape.broadcast_rev s s = Some s.
Proof.
  induction s as [|d s IH]; simpl; [reflexivity|].
  now rewrite broadcast_dim_same, IH.
Qed.

Lemma broadcast_same s : Shape.broadcast s s = Some s.
Proof.
  unfold Shape.broadcast. rewrite broadcast_rev_same. simpl.
  now rewrite rev_involutive.
Qed.

Lemma pad_same s : Shape.pad (length s) s = s.
Proof. unfold Shape.pad. now rewrite Nat.sub_diag. Qed.

Lemma concat_chunks k n l :
  concat (Shape.chunks k n l) = firstn (n * k) l.
Proof.
  revert l. induction n as [|n IH]; intros l; simpl; [reflexivity|].
  rewrite IH. apply take_take_drop.
Qed.

Lemma chunks_length k n l :
  Forall (fun c => (length c <= k)%nat) (Shape.chunks k n l).
Proof.
  revert l. induction n as [|n IH]; intros l; simpl; constructor.
  - rewrite length_take. lia.
  - apply IH.
Qed.

Lemma expand_same s :
  forall l, (length l <= Shape.numel s)%nat -> Shape.expand s s l = l.
Proof.
  induction s as [|d s IH]; intros l Hl; simpl; [reflexivity|].
  rewrite Nat.eqb_refl.
  assert (Hm : map (Shape.expand s s) (Shape.chunks (Shape.numel s) d l)
               = Shape.chunks (Shape.numel s) d l).
  { pose proof (chunks_length (Shape.numel s) d l) as Hc.
    induction Hc as [|c cs Hc _ IHc]; simpl; [reflexivity|].
    now rewrite IH, IHc. }
  rewrite Hm, concat_chunks. apply firstn_all2. exact Hl.
Qed.

Lemma expand_to_same s l :
  length l = Shape.numel s -> Shape.expand_to s s l = l.
Proof.
  intros Hl. unfold Shape.expand_to. rewrite pad_same.
  apply expand_same. lia.
Qed.

Lemma numel_squeeze s : Shape.numel (Shape.squeeze s) = Shape.numel s.
Proof.
  induction s as [|d s IH]; simpl; [reflexivity|].
  destruct (Nat.eqb_spec d 1) as [->|Hd]; simpl; rewrite IH; lia.
Qed.

Lemma squeeze_no_one s : ~ In 1%nat (Shape.squeeze s).
Proof.
  unfold Shape.squeeze. rewrite filter_In. intros [_ H].
  now rewrite Nat.eqb_refl in H.
Qed.

Lemma shape_eqb_eq s t : Shape.eqb s t = true <-> s = t.
Proof. unfold Shape.eqb. apply bool_decide_eq_true. Qed.

(** ** Inversion of the monadic steps *)

Section Steps.

Context `{TB : TorchBackend}.

Lemma bind_return_inv {A B} (m : M A) (k : A -> M B) w b w' :
  bind m k w = (Return b, w') ->
  exists a w1, m w = (Return a, w1) /\ k a w1 = (Return b, w').
Proof.
  unfold bind. destruct (m w) as [[e|a] w1]; intros H; [discriminate|eauto].
Qed.

Lemma lift_return_inv {A} (o : outcome A) w a w' :
  lift o w = (Return a, w') -> o = Return a /\ w' = w.
Proof. unfold lift. intros H. now inversion H. Qed.

Lemma assert_return_inv b w u w' :
  assert b w = (Return u, w') -> b = true /\ w' = w.
Proof. destruct b; simpl; intros H; inversion H; auto. Qed.

Lemma modify_return_inv f w u w' :
  modify f w = (Return u, w') -> w' = f w.
Proof. unfold modify. intros H. now inversion H. Qed.

Lemma backward_return_inv loss w u w' :
  backward loss w = (Return u, w') ->
  requires_grad loss = true /\ w' = accumulated loss w.
Proof.
  unfold backward. destruct (requires_grad loss); intros H.
  - apply modify_return_inv in H. auto.
  - discriminate.
Qed.

Lemma ret_return_inv {A} (a b : A) w w' :
  ret a w = (Return b, w') -> a = b /\ w' = w.
Proof. unfold ret. intros H. now inversion H. Qed.

Lemma bind_ret_l {A B} (a : A) (k : A -> M B) w : bind (ret a) k w = k a w.
Proof. reflexivity. Qed.

Lemma bind_raise_l {A B} (e : error) (k : A -> M B) w :
  bind (raise e) k w = (Raise e, w).
Proof. reflexivity. Qed.

Lemma bind_lift_l {A B} (a : A) (k : A -> M B) w :
  bind (lift (Return a)) k w = k a w.
Proof. reflexivity. Qed.

Lemma bind_lift_raise_l {A B} (e : error) (k : A -> M B) w :
  bind (lift (Raise e)) k w = (Raise e, w).
Proof. reflexivity. Qed.

Lemma bind_get_self {B} (k : Seq2SlateTrainer -> M B) w :
  bind get_self k w = k (self w) w.
Proof. reflexivity. Qed.

Lemma bind_get_params {B} (k : gmap positive pval -> M B) w :
  bind get_params k w = k (param_data w) w.
Proof. reflexivity. Qed.

Lemma bind_assert_true {B} (k : unit -> M B) w : bind (assert true) k w = k tt w.
Proof. reflexivity. Qed.

Lemma bind_assert_false {B} (k : unit -> M B) w :
  bind (assert false) k w = (Raise AssertionError, w).
Proof. reflexivity. Qed.

Lemma bind_modify_l {B} (f : world -> world) (k : unit -> M B) w :
  bind (modify f) k w = k tt (f w).
Proof. reflexivity. Qed.

End Steps.

Ltac inv_step H :=
  match type of H with
  | bind _ _ _ = (Return _, _) =>
      let a := fresh "a" in
      let w1 := fresh "w" in
      let H1 := fresh "H" in
      apply bind_return_inv in H; destruct H as (a & w1 & H1 & H); inv_step H1
  | lift _ _ = (Return _, _) =>
      apply lift_return_inv in H; destruct H as [H ->]
  | assert _ _ = (Return _, _) =>
      apply assert_return_inv in H; destruct H as [H ->]
  | backward _ _ = (Return _, _) =>
      apply backward_return_inv in H; destruct H as [H ->]
  | ret _ _ = (Return _, _) =>
      apply ret_return_inv in H; destruct H as [H ->]
  | get_self _ = (Return _, _) =>
      apply ret_return_inv in H; destruct H as [<- ->]
  | get_params _ = (Return _, _) =>
      apply ret_return_inv in H; destruct H as [<- ->]
  | zero_grad _ _ = (Return _, _) =>
      apply modify_return_inv in H; subst
  | opt_step _ _ = (Return _, _) =>
      apply modify_return_inv in H; subst
  | emit _ _ = (Return _, _) =>
      apply modify_return_inv in H; subst
  | incr_minibatch _ = (Return _, _) =>
      apply modify_return_inv in H; subst
  end.

(** ** What a completed call has computed *)

Section Completed.

Context `{TB : TorchBackend}.

Lemma train_baseline_return i r n w b bl w1 :
  train_baseline i r n w = (Return (b, bl), w1) ->
  b = baseline_value w i /\
  exists c d, float_div_int n = Return c /\ sub b r = Return d /\
    bl = scale c (torch_sum (pow2 d)) /\ requires_grad bl = true /\
    w1 = after_update BaselineOpt bl w.
Proof.
  unfold train_baseline. intros H.
  repeat (inv_step H). simplify_eq.
  split; [reflexivity|]. eauto 10.
Qed.

Lemma train_seq2slate_return i r b n w b' lp rl w2 :
  train_seq2slate i r b n w = (Return (b', lp, rl), w2) ->
  b' = detach b /\
  lp = call_net (seq2slate_net (self w)) (param_data w) i /\
  shape b = shape r /\ shape r = shape lp /\ requires_grad lp = true /\
  exists wt wl adv bloss c,
    importance_sampling (self w) i lp = Return wt /\
    mul (neg wt) lp = Return wl /\
    sub r b' = Return adv /\
    mul wl adv = Return bloss /\
    float_div_int n = Return c /\
    rl = scale c (torch_sum bloss) /\
    w2 = after_update RlOpt rl w.
Proof.
  unfold train_seq2slate. intros H.
  repeat (inv_step H). simplify_eq.
  apply andb_true_iff in H0 as [Hs1 Hs2].
  apply shape_eqb_eq in Hs1, Hs2. simpl in Hs1.
  apply andb_true_iff in H1 as [_ Hg].
  repeat split; try assumption; try reflexivity.
  eauto 15.
Qed.

Lemma train_return batch w lp' adv rl' bl' w' :
  train batch w = (Return (lp', adv, rl', bl'), w') ->
  exists i r n b bl w1 lp rl w2,
    batch = PreprocessedTrainingBatch (RankingInput i) /\
    slate_reward i = Some r /\
    shape0 (state_float_features i) = Return n /\
    train_baseline i r n w = (Return (b, bl), w1) /\
    train_seq2slate i r b n w1 = (Return (detach b, lp, rl), w2) /\
    sub r (detach b) = Return adv /\
    lp' = detach lp /\ rl' = numpy (detach rl) /\ bl' = numpy (detach bl) /\
    w' = logged (EvLog (minibatch (self (incremented w2))) rl' bl')
           (incremented w2).
Proof.
  unfold train. intros H.
  destruct batch as [[i|]|]; try discriminate.
  rewrite !bind_ret_l in H.
  apply bind_return_inv in H as (n & w0 & Hn & H).
  apply lift_return_inv in Hn as [Hn ->].
  destruct (slate_reward i) as [r|] eqn:Hr; [|discriminate].
  rewrite bind_ret_l in H.
  apply bind_return_inv in H as ([b bl] & w1 & Hb & H).
  apply bind_return_inv in H as ([[b' lp] rl] & w2 & Hp & H).
  pose proof (train_seq2slate_return _ _ _ _ _ _ _ _ _ Hp) as [-> _].
  repeat (inv_step H). simplify_eq.
  exists i, r, n, b, bl, w1, lp, rl, w2. auto 12.
Qed.

End Completed.

(** ** Element-wise operators on operands of one shape *)

Section Values.

Context `{TB : TorchBackend}.

Lemma zip_with_R_length f l k :
  length l = length k -> length (zip_with_R f l k) = length l.
Proof.
  revert k. induction l as [|x l IH]; intros [|y k] H; simpl in *; try lia.
  rewrite IH; lia.
Qed.

Lemma binop_same_shape f a b :
  shape a = shape b -> wf_tensor a -> wf_tensor b ->
  exists t, binop f a b = Return t /\ shape t = shape a /\
    data t = zip_with_R f (data a) (data b) /\ wf_tensor t.
Proof.
  intros Hs Ha Hb. unfold binop. rewrite <- Hs, broadcast_same.
  eexists. split; [reflexivity|]. simpl.
  unfold wf_tensor in *. rewrite Hs in Ha at 1.
  rewrite !expand_to_same by congruence.
  repeat split. simpl. rewrite zip_with_R_length; congruence.
Qed.

Lemma binop_same_shape_inv f a b t :
  binop f a b = Return t ->
  shape a = shape b -> wf_tensor a -> wf_tensor b ->
  shape t = shape a /\ data t = zip_with_R f (data a) (data b) /\ wf_tensor t.
Proof.
  intros Ht Hs Ha Hb.
  destruct (binop_same_shape f a b Hs Ha Hb) as (t' & Ht' & H).
  rewrite Ht in Ht'. now inversion Ht'; subst.
Qed.

Lemma binop_requires_grad f a b t :
  binop f a b = Return t -> requires_grad t = requires_grad a || requires_grad b.
Proof.
  unfold binop. destruct (Shape.broadcast (shape a) (shape b)); intros H;
    inversion H. reflexivity.
Qed.

Lemma float_div_int_return n c :
  float_div_int n = Return c -> n <> O /\ c = 1 / INR n.
Proof. destruct n; simpl; intros H; inversion H. split; [lia|reflexivity]. Qed.

Lemma wf_squeeze t : wf_tensor t -> wf_tensor (squeeze t).
Proof. unfold wf_tensor. simpl. now rewrite numel_squeeze. Qed.

Lemma wf_detach t : wf_tensor (detach t) <-> wf_tensor t.
Proof. reflexivity. Qed.

Lemma wf_pointwise f t : wf_tensor t -> wf_tensor (pointwise f t).
Proof. unfold wf_tensor. simpl. now rewrite length_map. Qed.

Lemma map_pow2_sub l k :
  map (fun x => x ^ 2) (zip_with_R Rminus l k)
  = zip_with_R (fun y x => (y - x) ^ 2) l k.
Proof.
  revert k. induction l as [|x l IH]; intros [|y k]; simpl; try reflexivity.
  now rewrite IH.
Qed.

Lemma zip_div_map_exp l k :
  zip_with_R Rdiv (map exp l) k = zip_with_R (fun x q => exp x / q) l k.
Proof.
  revert k. induction l as [|x l IH]; intros [|y k]; simpl; try reflexivity.
  now rewrite IH.
Qed.

Lemma loss_value c t :
  nd_data (numpy (detach (scale c (torch_sum t)))) = [c * sum_list (data t)].
Proof. reflexivity. Qed.

Lemma pow2_data d : data (pow2 d) = map (fun x => x ^ 2) (data d).
Proof. reflexivity. Qed.

Lemma mean_scaled n l :
  length l = n -> 1 / INR n * sum_list l = mean l.
Proof. intros <-. unfold mean, Rdiv. ring. Qed.

End Values.

(** ** The outcomes of the two phases and of a call *)

Section Outcomes.
Context `{TB : TorchBackend}.

Lemma train_baseline_outcome i r n w :
  (exists bl, train_baseline i r n w
     = (Return (baseline_value w i, bl), after_update BaselineOpt bl w))
  \/ (exists e, train_baseline i r n w = (Raise e, w)
        /\ (e = ZeroDivisionError \/ e = RuntimeError))
  \/ train_baseline i r n w = (Raise RuntimeError, zeroed BaselineOpt w).
Proof.
  unfold train_baseline.
  rewrite bind_get_self, bind_get_params.
  destruct (float_div_int n) as [e|c] eqn:Hc.
  { right; left. exists e. rewrite bind_lift_raise_l. split; [reflexivity|].
    destruct n; simpl in Hc; inversion Hc. now left. }
  rewrite bind_lift_l.
  destruct (sub _ r) as [e|d] eqn:Hd.
  { right; left. exists e. rewrite bind_lift_raise_l. split; [reflexivity|].
    unfold sub, binop in Hd. destruct (Shape.broadcast _ _); inversion Hd.
    now right. }
  rewrite bind_lift_l. unfold zero_grad. rewrite bind_modify_l.
  unfold backward.
  destruct (requires_grad (scale c (torch_sum (pow2 d)))) eqn:Hg.
  - left. eexists. unfold opt_step. rewrite !bind_modify_l. reflexivity.
  - right; right. reflexivity.
Qed.

Lemma train_seq2slate_outcome i r b n w :
  (exists lp rl adv, train_seq2slate i r b n w
     = (Return (detach b, lp, rl), after_update RlOpt rl w)
     /\ sub r (detach b) = Return adv)
  \/ (exists e, train_seq2slate i r b n w = (Raise e, w)).
Proof.
  unfold train_seq2slate.
  rewrite bind_get_self, bind_get_params.
  set (lp := call_net _ _ _).
  destruct (Shape.eqb _ _ && Shape.eqb _ _);
    [rewrite bind_assert_true | right; eexists; apply bind_assert_false].
  cbn [detach requires_grad negb andb].
  destruct (requires_grad lp) eqn:Hg;
    [rewrite bind_assert_true | right; eexists; apply bind_assert_false].
  destruct (importance_sampling _ _ _) as [e|wt];
    [right; eexists; apply bind_lift_raise_l | rewrite bind_lift_l].
  destruct (mul (neg wt) lp) as [e|wl] eqn:Hwl;
    [right; eexists; apply bind_lift_raise_l | rewrite bind_lift_l].
  destruct (sub r (detach b)) as [e|adv] eqn:Hadv;
    [right; eexists; apply bind_lift_raise_l | rewrite bind_lift_l].
  destruct (mul wl adv) as [e|bloss] eqn:Hbl;
    [right; eexists; apply bind_lift_raise_l | rewrite bind_lift_l].
  destruct (float_div_int n) as [e|c];
    [right; eexists; apply bind_lift_raise_l | rewrite bind_lift_l].
  left. unfold zero_grad. rewrite bind_modify_l. unfold backward.
  assert (Hrg : requires_grad (scale c (torch_sum bloss)) = true).
  { apply binop_requires_grad in Hwl, Hbl. simpl.
    rewrite Hbl, Hwl, Hg. now rewrite orb_true_r. }
  rewrite Hrg. unfold opt_step. rewrite !bind_modify_l. eauto 6.
Qed.

Lemma train_unfold i r n w :
  slate_reward i = Some r ->
  shape0 (state_float_features i) = Return n ->
  train (PreprocessedTrainingBatch (RankingInput i)) w =
  match train_baseline i r n w with
  | (Raise e, w1) => (Raise e, w1)
  | (Return (b, bl), w1) =>
      match train_seq2slate i r b n w1 with
      | (Raise e, w2) => (Raise e, w2)
      | (Return (b', lp, rl), w2) =>
          match sub r b' with
          | Raise e => (Raise e, w2)
          | Return adv =>
              (Return (detach lp, adv, numpy (detach rl), numpy (detach bl)),
               logged (EvLog (minibatch (self w2) + 1)
                         (numpy (detach rl)) (numpy (detach bl)))
                 (incremented w2))
          end
      end
  end.
Proof.
  intros Hr Hn. unfold train. rewrite !bind_ret_l, Hn, bind_lift_l, Hr, bind_ret_l.
  unfold bind at 1.
  destruct (train_baseline i r n w) as [[e|[b bl]] w1]; [reflexivity|].
  unfold bind at 1.
  destruct (train_seq2slate i r b n w1) as [[e|[[b' lp] rl]] w2]; [reflexivity|].
  destruct (sub r b') as [e|adv].
  - now rewrite bind_lift_raise_l.
  - rewrite bind_lift_l. reflexivity.
Qed.

Lemma returns_result (o : outcome (tensor * tensor * ndarray * ndarray) * world) :
  is_return (fst o) = true ->
  o = (Return ((result o).1.1.1, (result o).1.1.2, (result o).1.2, (result o).2),
       snd o).
Proof.
  destruct o as [[e|[[[lp adv] rl] bl]] w]; simpl; [discriminate|reflexivity].
Qed.

Lemma train_completed w i r n lp' adv rl' bl' w' :
  slate_reward i = Some r ->
  shape0 (state_float_features i) = Return n ->
  train (PreprocessedTrainingBatch (RankingInput i)) w
    = (Return (lp', adv, rl', bl'), w') ->
  exists d bl lp wt wl bloss rl,
    n <> O /\
    sub (baseline_value w i) r = Return d /\
    bl = scale (1 / INR n) (torch_sum (pow2 d)) /\
    requires_grad bl = true /\
    lp = call_net (seq2slate_net (self w))
           (param_data (after_update BaselineOpt bl w)) i /\
    shape (baseline_value w i) = shape r /\
    shape r = shape lp /\
    requires_grad lp = true /\
    importance_sampling (self w) i lp = Return wt /\
    mul (neg wt) lp = Return wl /\
    sub r (detach (baseline_value w i)) = Return adv /\
    mul wl adv = Return bloss /\
    rl = scale (1 / INR n) (torch_sum bloss) /\
    lp' = detach lp /\ rl' = numpy (detach rl) /\ bl' = numpy (detach bl) /\
    w' = logged (EvLog (minibatch (self w) + 1) rl' bl')
           (incremented (after_update RlOpt rl (after_update BaselineOpt bl w))).
Proof.
  intros Hr Hn Ht.
  apply train_return in Ht
    as (i' & r' & n' & b & bl0 & w1 & lp0 & rl0 & w2 & Hb & Hr' & Hn'
        & Hbase & Hpol & Hadv & -> & -> & -> & ->).
  simplify_eq. assert (n' = n) as -> by congruence.
  apply train_baseline_return in Hbase as (-> & c & d & Hc & Hd & -> & Hg & ->).
  apply train_seq2slate_return in Hpol
    as (_ & -> & Hs1 & Hs2 & Hg2 & wt & wl & adv' & bloss & c' & Hw & Hwl
        & Hadv' & Hbl & Hc' & -> & ->).
  assert (c' = c) as -> by congruence.
  assert (adv' = adv) as -> by congruence.
  apply float_div_int_return in Hc as [Hn0 ->].
  exists d, (scale (1 / INR n) (torch_sum (pow2 d))).
  eexists _, wt, wl, bloss, _.
  repeat (split; [first [eassumption | reflexivity]|]).
  reflexivity.
Qed.


End Outcomes.

(** ** The losses and the advantage of a completed call *)

Section Losses.

Context `{TB : TorchBackend}.

Lemma episode_losses_zip wt lp r b :
  zip_with_R Rmult (zip_with_R Rmult (map Ropp wt) lp) (zip_with_R Rminus r b)
  = episode_losses wt lp r b.
Proof.
  revert lp r b. induction wt as [|w wt IH]; intros [|l lp] [|x r] [|y b];
    simpl; try reflexivity.
  now rewrite IH.
Qed.

Lemma episode_losses_length wt lp r b n :
  length wt = n -> length lp = n -> length r = n -> length b = n ->
  length (episode_losses wt lp r b) = n.
Proof.
  revert wt lp r b. induction n as [|n IH]; intros [|w wt] [|l lp] [|x r] [|y b];
    simpl; intros; try lia.
  rewrite IH; lia.
Qed.

Lemma importance_sampling_off_policy s i lp p :
  on_policy s = false -> tgt_out_probs i = Some p ->
  importance_sampling s i lp = div (torch_exp (detach lp)) p.
Proof. unfold importance_sampling. now intros -> ->. Qed.

(** What a completed off-policy call has computed: the importance weight
    of each episode is [exp(log_prob) / tgt_out_prob] and the returned
    [rl_loss] is the mean over the batch of
    [- weight * log_prob * (reward - baseline)]; when the call has one
    episode, log-probability [ln(1/2)] and behavior probability [1/4], the
    weight is 2 and [rl_loss = -2 * ln(1/2) * (reward - baseline)].  The
    reward and the behavior probabilities have one entry per episode, in
    the same shape.  Whether a call completes is another matter: see the
    one-episode batch at the end. *)
Theorem off_policy_rl_loss w i r p n lp adv rl bl w' :
  on_policy (self w) = false ->
  slate_reward i = Some r ->
  tgt_out_probs i = Some p ->
  shape0 (state_float_features i) = Return n ->
  Shape.numel (shape r) = n ->
  shape p = shape r ->
  wf_tensor r -> wf_tensor p -> wf_tensor lp ->
  wf_tensor (baseline_value w i) ->
  train (PreprocessedTrainingBatch (RankingInput i)) w
    = (Return (lp, adv, rl, bl), w') ->
  let b := data (baseline_value w i) in
  let wt := zip_with_R (fun l q => exp l / q) (data lp) (data p) in
  (exists t, importance_sampling (self w) i lp = Return t /\
             shape t = shape lp /\ data t = wt) /\
  nd_data rl = [mean (episode_losses wt (data lp) (data r) b)] /\
  (n = 1%nat -> data lp = [ln (1 / 2)] -> data p = [1 / 4] ->
   wt = [2] /\
   exists x y, data r = [x] /\ b = [y] /\
     nd_data rl = [- 2 * ln (1 / 2) * (x - y)]).
Proof.
  intros Hoff Hr Hp Hn Hnum Hsp Hwr Hwp Hwlp Hwb Ht b wt.
  destruct (train_completed _ _ _ _ _ _ _ _ _ Hr Hn Ht)
    as (d & bl0 & lp0 & wt0 & wl & bloss & rl0 & Hn0 & Hd & _ & _ & _ & Hs1 & Hs2
        & _ & Hw & Hwl & Hadv & Hbl & -> & -> & -> & _).
  apply wf_detach in Hwlp.
  rewrite (importance_sampling_off_policy _ _ _ _ Hoff Hp) in Hw.
  rewrite (importance_sampling_off_policy _ _ _ _ Hoff Hp).
  change (div (torch_exp (detach (detach lp0))) p)
    with (div (torch_exp (detach lp0)) p).
  pose proof Hw as Hw0.
  apply binop_same_shape_inv in Hw as (Hsw & Hdw & Hww);
    [| simpl; congruence | apply wf_pointwise; assumption | assumption].
  simpl in Hsw.
  apply binop_same_shape_inv in Hwl as (Hswl & Hdwl & Hwwl);
    [| simpl; congruence | apply wf_pointwise; assumption | assumption].
  simpl in Hswl.
  apply binop_same_shape_inv in Hadv as (Hsa & Hda & Hwa);
    [| symmetry; exact Hs1 | assumption | assumption].
  apply binop_same_shape_inv in Hbl as (_ & Hdb & _);
    [| simpl in *; congruence | assumption | assumption].
  simpl in Hdw. rewrite zip_div_map_exp in Hdw. fold wt in Hdw.
  assert (Hrl : nd_data (numpy (detach (scale (1 / INR n) (torch_sum bloss))))
                = [mean (episode_losses wt (data lp0) (data r) b)]).
  { rewrite loss_value, Hdb, Hdwl, Hda. simpl (data (neg wt0)).
    rewrite Hdw. change (data (detach (baseline_value w i))) with b.
    rewrite episode_losses_zip. f_equal. apply mean_scaled.
    unfold wf_tensor in *. simpl in Hwlp.
    assert (Hl1 : length (data lp0) = n) by congruence.
    assert (Hl2 : length (data r) = n) by congruence.
    assert (Hl3 : length b = n) by (subst b; congruence).
    assert (Hwt0 : wt = data wt0) by (symmetry; exact Hdw).
    assert (Hl4 : length wt = n) by (rewrite Hwt0; congruence).
    now apply episode_losses_length. }
  split; [|split].
  - exists wt0. split; [exact Hw0|]. split; [exact Hsw | exact Hdw].
  - exact Hrl.
  - intros -> Hlp Hpd. simpl in Hlp.
    assert (Hwt : wt = [2]).
    { subst wt. simpl. rewrite Hlp, Hpd. simpl. f_equal.
      rewrite exp_ln by lra. field. }
    split; [exact Hwt|].
    unfold wf_tensor in Hwr, Hwb. rewrite <- Hs1 in Hnum.
    rewrite Hnum in Hwb. rewrite Hs1 in Hnum. rewrite Hnum in Hwr.
    fold b in Hwb.
    destruct (data r) as [|x [|]] eqn:Er; try discriminate.
    destruct b as [|y [|]] eqn:Eb; try discriminate.
    exists x, y. repeat split.
    rewrite Hrl, Hwt, Hlp. simpl. unfold mean. simpl. f_equal. field.
Qed.


(** C6. The returned advantage is, entry by entry, the reward minus the
    output of the baseline network on this call's input and on the
    parameter values this call was entered with; it carries no gradient of
    the baseline. *)
Theorem advantage_is_reward_minus_baseline w i r n lp adv rl bl w' :
  slate_reward i = Some r ->
  shape0 (state_float_features i) = Return n ->
  wf_tensor r ->
  wf_tensor (baseline_value w i) ->
  train (PreprocessedTrainingBatch (RankingInput i)) w
    = (Return (lp, adv, rl, bl), w') ->
  shape adv = shape r /\
  data adv =
    zip_with_R Rminus (data r)
      (out_data (net_forward (baseline_net (self w)) (param_data w) i)) /\
  requires_grad adv = requires_grad r.
Proof.
  intros Hr Hn Hwr Hwb Ht.
  destruct (train_completed _ _ _ _ _ _ _ _ _ Hr Hn Ht)
    as (d & bl0 & lp0 & wt & wl & bloss & rl0 & Hn0 & Hd & _ & _ & _ & Hs & _
        & _ & _ & _ & Hadv & _).
  pose proof (binop_requires_grad _ _ _ _ Hadv) as Hg.
  apply binop_same_shape_inv in Hadv as (Hsa & Hda & _);
    [| symmetry; exact Hs | assumption | assumption].
  repeat split; [exact Hsa | exact Hda |].
  rewrite Hg. simpl. apply orb_false_r.
Qed.


(** [squeeze()] removes the batch dimension of a one-episode batch too: a
    reward of shape (1,) never has the shape of [b], and the call raises. *)
Remark rank1_single_reward_raises w i r :
  slate_reward i = Some r ->
  shape r = [1%nat] ->
  is_return (fst (train (PreprocessedTrainingBatch (RankingInput i)) w)) = false.
Proof.
  intros Hr Hs.
  destruct (train _ w) as [[e|[[[lp adv] rl] bl]] w'] eqn:Ht; [reflexivity|].
  exfalso.
  apply train_return in Ht
    as (i' & r' & n & b & bl0 & w1 & lp0 & rl0 & w2 & Hb & Hr' & _ & Hbase
        & Hpol & _).
  simplify_eq.
  apply train_baseline_return in Hbase as (-> & _).
  apply train_seq2slate_return in Hpol as (_ & _ & Hsb & _).
  apply (squeeze_no_one (shape (call_net (baseline_net (self w)) (param_data w) i'))).
  change (Shape.squeeze (shape (call_net (baseline_net (self w)) (param_data w) i')))
    with (shape (baseline_value w i')).
  rewrite Hsb, Hs. now left.
Qed.

End Losses.

(** ** Failed calls, the step counter and the optimizer steps *)

Section Effects.
Context `{TB : TorchBackend}.

Lemma train_cases batch w :
  (exists e, train batch w = (Raise e, w))
  \/ train batch w = (Raise RuntimeError, zeroed BaselineOpt w)
  \/ (exists e bl, train batch w = (Raise e, after_update BaselineOpt bl w))
  \/ (exists res bl rl ev,
        train batch w =
        (Return res,
         logged ev (incremented
           (after_update RlOpt rl (after_update BaselineOpt bl w))))).
Proof.
  destruct batch as [[i|]|]; try (left; eexists; reflexivity).
  destruct (shape0 (state_float_features i)) as [e|n] eqn:Hn.
  { left. exists e. unfold train. now rewrite !bind_ret_l, Hn. }
  destruct (slate_reward i) as [r|] eqn:Hr.
  2:{ left. exists AssertionError. unfold train.
      now rewrite !bind_ret_l, Hn, bind_lift_l, Hr. }
  rewrite (train_unfold i r n w Hr Hn).
  destruct (train_baseline_outcome i r n w) as [[bl ->]|[(e & -> & _)| ->]];
    [|left; eauto|right; left; reflexivity].
  destruct (train_seq2slate_outcome i r (baseline_value w i) n
              (after_update BaselineOpt bl w)) as [(lp & rl & adv & -> & ->)|[e ->]];
    [|right; right; left; eauto].
  right; right; right. eauto 8.
Qed.

Lemma steps_app o l k : steps o (l ++ k) = (steps o l + steps o k)%nat.
Proof. unfold steps. now rewrite List.filter_app, length_app. Qed.

(** C7. The step counter is 0 after construction; a call of [train] that
    returns leaves it one higher, a call that raises leaves it as it was;
    so it never decreases. *)
Theorem step_counter :
  (forall sn bn onp mbs gpu, minibatch (init sn bn onp mbs gpu) = 0%Z) /\
  (forall batch w,
     minibatch (self (snd (train batch w))) =
     if is_return (fst (train batch w))
     then (minibatch (self w) + 1)%Z
     else minibatch (self w)) /\
  (forall batch w,
     (minibatch (self w) <= minibatch (self (snd (train batch w))))%Z).
Proof.
  assert (H : forall batch w,
     minibatch (self (snd (train batch w))) =
     if is_return (fst (train batch w))
     then (minibatch (self w) + 1)%Z
     else minibatch (self w)).
  { intros batch w.
    destruct (train_cases batch w)
      as [[e ->]|[->|[(e & bl & ->)|(res & bl & rl & ev & ->)]]]; reflexivity. }
  split; [reflexivity|]. split; [exact H|].
  intros batch w. rewrite H. destruct (is_return _); lia.
Qed.

(** C8. On a batch without reward, [train] raises AssertionError and the
    world is the one the call was entered with: no optimizer, gradient or
    parameter has changed.  This holds whatever [on_policy] is.  The state
    features have a batch dimension to read. *)
Theorem missing_reward_rejected w i :
  slate_reward i = None ->
  shape (state_float_features i) <> [] ->
  train (PreprocessedTrainingBatch (RankingInput i)) w
    = (Raise AssertionError, w).
Proof.
  intros Hr Hs. unfold train. rewrite !bind_ret_l.
  unfold shape0. destruct (shape (state_float_features i)); [contradiction|].
  now rewrite bind_lift_l, Hr.
Qed.


Lemma steps_after_update o o' loss w :
  steps o (trace (after_update o' loss w)) =
  (steps o (trace w) + if is_step o (EvStep o') then 1 else 0)%nat.
Proof.
  unfold after_update, stepped, accumulated, zeroed. cbn [trace].
  rewrite !steps_app. unfold steps at 2 3 4. cbn [List.filter is_step length].
  destruct o, o'; simpl; lia.
Qed.

Lemma steps_zeroed o o' w : steps o (trace (zeroed o' w)) = steps o (trace w).
Proof.
  unfold zeroed. cbn [trace]. rewrite steps_app.
  destruct o; unfold steps at 2; simpl; lia.
Qed.

Lemma train_seq2slate_shape_mismatch i r b n w :
  shape b <> shape r ->
  train_seq2slate i r b n w = (Raise AssertionError, w).
Proof.
  intros Hs. unfold train_seq2slate. rewrite bind_get_self, bind_get_params.
  cbn [detach shape].
  destruct (Shape.eqb (shape b) (shape r)) eqn:E.
  - apply shape_eqb_eq in E. contradiction.
  - reflexivity.
Qed.

(** C2, as the code has it.  When the reward does not have one entry per
    episode, while the baseline network does, the call raises, the policy
    optimizer is not stepped and the step counter is unchanged.  The shape
    assertion stands after the baseline update: the error is AssertionError
    exactly when the baseline optimizer has been stepped once in the call;
    otherwise it is an error of the baseline phase and no parameter has
    changed. *)
Theorem shape_mismatch_failure w i r n :
  slate_reward i = Some r ->
  shape0 (state_float_features i) = Return n ->
  Shape.numel (shape r) <> n ->
  Shape.numel
    (out_shape (net_forward (baseline_net (self w)) (param_data w) i)) = n ->
  exists e w',
    train (PreprocessedTrainingBatch (RankingInput i)) w = (Raise e, w') /\
    minibatch (self w') = minibatch (self w) /\
    steps RlOpt (trace w') = steps RlOpt (trace w) /\
    ((e = AssertionError /\
      steps BaselineOpt (trace w') = S (steps BaselineOpt (trace w)))
     \/ (e <> AssertionError /\
         steps BaselineOpt (trace w') = steps BaselineOpt (trace w) /\
         param_data w' = param_data w)).
Proof.
  intros Hr Hn Hne Hb.
  assert (Hs : shape (baseline_value w i) <> shape r).
  { intros E. apply Hne. rewrite <- E, <- Hb. simpl. apply numel_squeeze. }
  rewrite (train_unfold i r n w Hr Hn).
  destruct (train_baseline_outcome i r n w) as [[bl ->]|[(e & -> & He)| ->]].
  - rewrite (train_seq2slate_shape_mismatch _ _ _ _ _ Hs).
    eexists _, _. split; [reflexivity|]. split; [reflexivity|].
    rewrite !steps_after_update. simpl. split; [lia|]. left. split; [reflexivity|lia].
  - eexists _, _. split; [reflexivity|]. repeat split.
    right. repeat split. destruct He as [-> | ->]; discriminate.
  - eexists _, _. split; [reflexivity|]. split; [reflexivity|].
    rewrite !steps_zeroed. split; [reflexivity|]. right.
    repeat split. discriminate.
Qed.

Lemma train_seq2slate_no_probs i r b n w :
  on_policy (self w) = false ->
  tgt_out_probs i = None ->
  let lp := call_net (seq2slate_net (self w)) (param_data w) i in
  train_seq2slate i r b n w =
  (Raise (if Shape.eqb (shape b) (shape r) && Shape.eqb (shape r) (shape lp)
             && requires_grad lp
          then TypeError else AssertionError), w).
Proof.
  intros Hoff Hp lp. unfold train_seq2slate.
  rewrite bind_get_self, bind_get_params. fold lp. cbn [detach shape requires_grad negb andb].
  destruct (Shape.eqb (shape b) (shape r) && Shape.eqb (shape r) (shape lp));
    [rewrite bind_assert_true | reflexivity].
  destruct (requires_grad lp); [rewrite bind_assert_true | reflexivity].
  unfold importance_sampling. rewrite Hoff, Hp. reflexivity.
Qed.

(** C4, as the code has it.  Off-policy without behavior probabilities the
    call raises, the policy optimizer is not stepped and the step counter
    is unchanged.  No assertion guards the probabilities: when the baseline
    phase completes and both assertions of the policy phase hold, the error
    is the TypeError of dividing by None, raised after the baseline
    optimizer has been stepped. *)
Theorem missing_behavior_probs_failure w i :
  on_policy (self w) = false ->
  tgt_out_probs i = None ->
  exists e w',
    train (PreprocessedTrainingBatch (RankingInput i)) w = (Raise e, w') /\
    minibatch (self w') = minibatch (self w) /\
    steps RlOpt (trace w') = steps RlOpt (trace w) /\
    (e = TypeError ->
     steps BaselineOpt (trace w') = S (steps BaselineOpt (trace w))) /\
    (forall r n bl,
       slate_reward i = Some r ->
       shape0 (state_float_features i) = Return n ->
       train_baseline i r n w
         = (Return (baseline_value w i, bl), after_update BaselineOpt bl w) ->
       let w1 := after_update BaselineOpt bl w in
       let lp := call_net (seq2slate_net (self w)) (param_data w1) i in
       shape (baseline_value w i) = shape r ->
       shape r = shape lp ->
       requires_grad lp = true ->
       e = TypeError /\ w' = w1).
Proof.
  intros Hoff Hp.
  destruct (shape0 (state_float_features i)) as [e0|n] eqn:Hn.
  { exists e0, w. unfold train. rewrite !bind_ret_l, Hn, bind_lift_raise_l.
    repeat split; try discriminate.
    unfold shape0 in Hn. destruct (shape _); inversion Hn. discriminate. }
  destruct (slate_reward i) as [r|] eqn:Hr.
  2:{ exists AssertionError, w. unfold train.
      rewrite !bind_ret_l, Hn, bind_lift_l, Hr, bind_raise_l.
      repeat split; discriminate. }
  rewrite (train_unfold i r n w Hr Hn).
  destruct (train_baseline_outcome i r n w) as [[bl Hb]|[(e & Hb & He)| Hb]];
    rewrite Hb.
  - rewrite (train_seq2slate_no_probs i r _ n (after_update BaselineOpt bl w) Hoff Hp).
    eexists _, _. split; [reflexivity|]. split; [reflexivity|].
    rewrite !steps_after_update. cbn [is_step].
    split; [lia|]. split; [intros _; lia|].
    intros r' n' bl' Hr' Hn' Hb'. cbv zeta. intros H1 H2 H3.
    assert (r' = r) as -> by congruence.
    assert (bl' = bl) as -> by congruence.
    apply shape_eqb_eq in H1, H2.
    change (seq2slate_net (self (after_update BaselineOpt bl w)))
      with (seq2slate_net (self w)).
    cbn [detach shape]. rewrite H1, H2, H3. split; reflexivity.
  - eexists _, _. do 3 (split; [reflexivity|]). split.
    + destruct He as [-> | ->]; discriminate.
    + intros r' n' bl' Hr' Hn' Hb'. congruence.
  - eexists _, _. split; [reflexivity|]. split; [reflexivity|].
    rewrite !steps_zeroed. split; [reflexivity|]. split; [discriminate|].
    intros r' n' bl' Hr' Hn' Hb'. congruence.
Qed.

End Effects.

(** ** Broadcasting a one-entry tensor *)

Section Broadcast.
Context `{TB : TorchBackend}.

Lemma numel_ones a : Forall (fun d => d = 1%nat) a -> Shape.numel a = 1%nat.
Proof. induction 1 as [|d a -> _ IH]; simpl; [reflexivity|]. rewrite IH. lia. Qed.

Lemma concat_repeat_repeat (x : R) n m :
  concat (repeat (repeat x n) m) = repeat x (m * n).
Proof.
  induction m as [|m IH]; simpl; [reflexivity|].
  now rewrite IH, repeat_app.
Qed.

Lemma expand_ones a : forall s x,
  length a = length s -> Forall (fun d => d = 1%nat) a ->
  Shape.expand a s [x] = repeat x (Shape.numel s).
Proof.
  induction a as [|d a IH]; intros [|e s] x Hl Ha; simpl in Hl; try lia.
  - reflexivity.
  - inversion Ha as [|? ? -> Ha']; subst. cbn [Shape.expand Shape.numel fold_right].
    change (fold_right Nat.mul 1%nat s) with (Shape.numel s).
    change (fold_right Nat.mul 1%nat a) with (Shape.numel a).
    destruct (Nat.eqb_spec 1 e) as [<-|He].
    + rewrite (numel_ones a Ha'). cbn [Shape.chunks firstn map concat].
      rewrite IH by (auto; lia). rewrite app_nil_r. f_equal. lia.
    + rewrite IH by (auto; lia). apply concat_repeat_repeat.
Qed.

Lemma broadcast_one s :
  Shape.broadcast [1%nat] s = Some (if s is [] then [1%nat] else s).
Proof.
  unfold Shape.broadcast. cbn [rev app].
  destruct (rev s) as [|e t] eqn:E.
  - apply (f_equal (@rev nat)) in E. rewrite rev_involutive in E. now subst.
  - assert (Hs : s = rev (e :: t)) by (now rewrite <- E, rev_involutive).
    cbn [Shape.broadcast_rev].
    assert (Hd : Shape.broadcast_dim 1 e = Some e).
    { unfold Shape.broadcast_dim. destruct (Nat.eqb_spec 1 e); [now subst|reflexivity]. }
    rewrite Hd. cbn [option_map]. rewrite <- Hs.
    destruct s; [|reflexivity]. destruct t; discriminate.
Qed.

Lemma zip_repeat_l f c l n :
  length l = n -> zip_with_R f (repeat c n) l = map (f c) l.
Proof.
  revert n. induction l as [|x l IH]; intros [|n] H; simpl in *; try lia;
    try reflexivity.
  now rewrite IH by lia.
Qed.

(** A one-entry tensor against any well-formed tensor: every entry is
    combined with that one entry. *)
Lemma binop_one_entry f c b :
  wf_tensor b ->
  exists t, binop f (FloatTensor [c]) b = Return t /\
    data t = map (f c) (data b) /\
    wf_tensor t /\
    (shape t = shape b \/ (shape b = [] /\ shape t = [1%nat])).
Proof.
  intros Hb. unfold binop. cbn [FloatTensor leaf shape data length].
  rewrite broadcast_one. unfold wf_tensor in *.
  destruct (shape b) as [|e s] eqn:Es.
  - eexists. split; [reflexivity|]. cbn [data shape].
    unfold Shape.expand_to, Shape.pad. cbn [length Nat.sub repeat app].
    rewrite !expand_same by (simpl in *; lia).
    simpl in Hb. destruct (data b) as [|x [|]]; try discriminate.
    simpl. repeat split. right. split; reflexivity.
  - eexists. split; [reflexivity|]. cbn [data shape].
    rewrite (expand_to_same (e :: s)) by exact Hb.
    unfold Shape.expand_to, Shape.pad.
    rewrite expand_ones.
    + rewrite zip_repeat_l by exact Hb. repeat split.
      * now rewrite length_map.
      * now left.
    + rewrite length_app, repeat_length. simpl. lia.
    + apply Forall_app. split; [|repeat constructor].
      generalize (length (e :: s) - length [1%nat])%nat as k.
      induction k; simpl; constructor; auto.
Qed.

(** Shape [1] against a 0-dimensional tensor. *)
Lemma binop_one_scalar f a b :
  shape a = [1%nat] -> shape b = [] -> wf_tensor a -> wf_tensor b ->
  exists t, binop f a b = Return t /\
    data t = zip_with_R f (data a) (data b).
Proof.
  intros Ha Hb Hwa Hwb. unfold binop. rewrite Ha, Hb. 
  eexists. split; [reflexivity|]. cbn [data].
  unfold wf_tensor in *. rewrite Ha in Hwa. rewrite Hb in Hwb.
  unfold Shape.expand_to, Shape.pad. cbn [length Nat.sub repeat app].
  now rewrite !expand_same by (simpl in *; lia).
Qed.

End Broadcast.

(** ** On-policy calls do not read the behavior probabilities *)

Section Blind.
Context `{TB : TorchBackend}.

Lemma call_net_ext net theta i i' :
  (forall th, net_forward net th i' = net_forward net th i) ->
  call_net net theta i' = call_net net theta i.
Proof.
  intros H. unfold call_net. rewrite H. f_equal.
  apply functional_extensionality. intros th. now rewrite H.
Qed.

Lemma importance_sampling_on_policy s i lp :
  on_policy s = true ->
  importance_sampling s i lp = Return (FloatTensor [1]).
Proof.
  intros H. unfold importance_sampling. rewrite H. simpl.
  now destruct (use_gpu s).
Qed.

Lemma train_baseline_ext i i' r n w :
  (forall th, net_forward (baseline_net (self w)) th i'
              = net_forward (baseline_net (self w)) th i) ->
  train_baseline i' r n w = train_baseline i r n w.
Proof.
  intros H. unfold train_baseline. rewrite !bind_get_self, !bind_get_params.
  now rewrite (call_net_ext _ _ _ _ H).
Qed.

Lemma train_seq2slate_ext i i' r b n w :
  on_policy (self w) = true ->
  (forall th, net_forward (seq2slate_net (self w)) th i'
              = net_forward (seq2slate_net (self w)) th i) ->
  train_seq2slate i' r b n w = train_seq2slate i r b n w.
Proof.
  intros Hon H. unfold train_seq2slate. rewrite !bind_get_self, !bind_get_params.
  rewrite (call_net_ext _ _ _ _ H).
  now rewrite !(importance_sampling_on_policy _ _ _ Hon).
Qed.

Lemma episode_losses_ones lp r b n :
  length lp = n -> length r = n -> length b = n ->
  zip_with_R Rmult (map (Rmult (Ropp 1)) lp) (zip_with_R Rminus r b)
  = episode_losses (repeat 1 n) lp r b.
Proof.
  revert lp r b. induction n as [|n IH]; intros [|l lp] [|x r] [|y b];
    simpl; intros; try lia; try reflexivity.
  rewrite IH by lia. reflexivity.
Qed.

Lemma on_policy_rl_loss w i r n lp adv rl bl w' :
  on_policy (self w) = true ->
  slate_reward i = Some r ->
  shape0 (state_float_features i) = Return n ->
  Shape.numel (shape r) = n ->
  wf_tensor r -> wf_tensor lp -> wf_tensor (baseline_value w i) ->
  train (PreprocessedTrainingBatch (RankingInput i)) w
    = (Return (lp, adv, rl, bl), w') ->
  nd_data rl =
    [mean (episode_losses (repeat 1 n) (data lp) (data r)
             (data (baseline_value w i)))].
Proof.
  intros Hon Hr Hn Hnum Hwr Hwlp Hwb Ht.
  destruct (train_completed _ _ _ _ _ _ _ _ _ Hr Hn Ht)
    as (d & bl0 & lp0 & wt & wl & bloss & rl0 & Hn0 & Hd & _ & _ & _ & Hs1 & Hs2
        & _ & Hw & Hwl & Hadv & Hbl & -> & -> & -> & _).
  apply wf_detach in Hwlp.
  rewrite (importance_sampling_on_policy _ _ _ Hon) in Hw.
  injection Hw as <-.
  destruct (binop_one_entry Rmult (Ropp 1) lp0 Hwlp) as (wl' & Hwl' & Hdwl & Hwwl & Hswl).
  change (binop Rmult (FloatTensor [Ropp 1]) lp0)
    with (mul (neg (FloatTensor [1])) lp0) in Hwl'.
  assert (wl' = wl) as -> by congruence.
  apply binop_same_shape_inv in Hadv as (Hsa & Hda & Hwa);
    [| symmetry; exact Hs1 | assumption | assumption].
  assert (Hdb : data bloss = zip_with_R Rmult (data wl) (data adv)).
  { destruct Hswl as [Hswl | [Hs0 Hswl]].
    - apply binop_same_shape_inv in Hbl as (_ & Hdb & _);
        [exact Hdb | congruence | assumption | assumption].
    - destruct (binop_one_scalar Rmult wl adv Hswl) as (t & Ht' & Hdt);
        [congruence | assumption | assumption |].
      unfold mul in Hbl. rewrite Hbl in Ht'. now injection Ht' as <-. }
  rewrite loss_value, Hdb, Hdwl, Hda.
  unfold wf_tensor in *.
  assert (Hl1 : length (data lp0) = n) by (rewrite <- Hnum, Hs2; exact Hwlp).
  assert (Hl2 : length (data r) = n) by congruence.
  assert (Hl3 : length (data (baseline_value w i)) = n) by congruence.
  change (data (detach (baseline_value w i))) with (data (baseline_value w i)).
  change (data (detach lp0)) with (data lp0).
  rewrite (episode_losses_ones _ _ _ n) by assumption.
  f_equal. apply mean_scaled.
  apply episode_losses_length; try assumption. apply repeat_length.
Qed.

(** C3. On-policy, the importance weight is the one-entry tensor [1.0]
    whatever the batch holds, so that every episode enters [rl_loss] with
    weight 1; and a call on a batch with other behavior probabilities has
    the same outcome, [rl_loss] and advantage included, and leaves the same
    world.  The networks are collaborators: they are assumed not to read
    the behavior probabilities. *)
Theorem on_policy_ignores_behavior_probs w i q :
  on_policy (self w) = true ->
  (forall th, net_forward (baseline_net (self w)) th (with_tgt_out_probs q i)
              = net_forward (baseline_net (self w)) th i) ->
  (forall th, net_forward (seq2slate_net (self w)) th (with_tgt_out_probs q i)
              = net_forward (seq2slate_net (self w)) th i) ->
  (forall lp, importance_sampling (self w) i lp = Return (FloatTensor [1])) /\
  (forall lp, importance_sampling (self w) (with_tgt_out_probs q i) lp
              = Return (FloatTensor [1])) /\
  (forall r n lp adv rl bl w',
     slate_reward i = Some r ->
     shape0 (state_float_features i) = Return n ->
     Shape.numel (shape r) = n ->
     wf_tensor r -> wf_tensor lp -> wf_tensor (baseline_value w i) ->
     train (PreprocessedTrainingBatch (RankingInput i)) w
       = (Return (lp, adv, rl, bl), w') ->
     nd_data rl =
       [mean (episode_losses (repeat 1 n) (data lp) (data r)
                (data (baseline_value w i)))]) /\
  train (PreprocessedTrainingBatch (RankingInput (with_tgt_out_probs q i))) w
  = train (PreprocessedTrainingBatch (RankingInput i)) w.
Proof.
  intros Hon Hb Hp.
  split; [intros lp; now apply importance_sampling_on_policy|].
  split; [intros lp; now apply importance_sampling_on_policy|].
  split; [intros; now eapply on_policy_rl_loss; eauto|].
  destruct (shape0 (state_float_features i)) as [e|n] eqn:Hn.
  { unfold train. rewrite !bind_ret_l. cbn [with_tgt_out_probs state_float_features].
    now rewrite Hn. }
  destruct (slate_reward i) as [r|] eqn:Hr.
  2:{ unfold train. rewrite !bind_ret_l.
      cbn [with_tgt_out_probs state_float_features slate_reward].
      now rewrite Hn, !bind_lift_l, Hr. }
  rewrite (train_unfold (with_tgt_out_probs q i) r n w Hr Hn).
  rewrite (train_unfold i r n w Hr Hn).
  rewrite (train_baseline_ext _ _ _ _ _ Hb).
  destruct (train_baseline_outcome i r n w) as [[bl ->]|[(e & -> & _)| ->]];
    try reflexivity.
  now rewrite (train_seq2slate_ext i (with_tgt_out_probs q i) r _ n
                 (after_update BaselineOpt bl w) Hon Hp).
Qed.

End Blind.

(** ** Which parameters a phase can change, and which baseline value it uses *)

Section Frame.
Context `{TB : TorchBackend}.

Lemma step_param_frame lr ams grads acc p q :
  p <> q -> (step_param lr ams grads acc p).1 !! q = acc.1 !! q.
Proof.
  intros Hpq. unfold step_param.
  destruct (grads !! p); [|reflexivity].
  destruct (acc.1 !! p); [|reflexivity].
  cbn [fst]. now apply lookup_insert_ne.
Qed.

Lemma fold_step_param_frame lr ams grads ps :
  forall acc q, ~ In q ps ->
  (fold_left (step_param lr ams grads) ps acc).1 !! q = acc.1 !! q.
Proof.
  induction ps as [|p ps IH]; intros acc q Hq; simpl; [reflexivity|].
  rewrite IH by (intros H; apply Hq; now right).
  apply step_param_frame. intros ->. apply Hq. now left.
Qed.

Lemma after_update_frame o loss w q :
  ~ In q (opt_params (get_opt o (self w))) ->
  param_data (after_update o loss w) !! q = param_data w !! q.
Proof.
  intros Hq. unfold after_update, stepped. cbn [param_data].
  now rewrite fold_step_param_frame.
Qed.

Lemma bound_set_opt_state o st s : bound (set_opt_state o st s) <-> bound s.
Proof. destruct o; reflexivity. Qed.

Lemma train_baseline_self i r n w :
  self (snd (train_baseline i r n w)) = self w \/
  exists st, self (snd (train_baseline i r n w))
             = set_opt_state BaselineOpt st (self w).
Proof.
  destruct (train_baseline_outcome i r n w) as [[bl ->]|[(e & -> & _)| ->]];
    [right; eexists; reflexivity | now left | now left].
Qed.

Lemma reachable_bound w : reachable w -> bound (self w).
Proof.
  induction 1 as [| batch w Hw IH | i r n w Hw IH].
  - split; reflexivity.
  - destruct (train_cases batch w)
      as [[e ->]|[->|[(e & bl & ->)|(res & bl & rl & ev & ->)]]];
      exact IH.
  - destruct (train_baseline_self i r n w) as [-> | [st ->]]; [exact IH|].
    now apply bound_set_opt_state.
Qed.

(** C9. Each optimizer holds the parameter list of its own network, from
    construction on.  The baseline phase leaves every parameter outside the
    baseline network as it was, and the policy phase leaves every parameter
    outside the policy network as it was, whether the phase completes or
    raises. *)
Theorem optimizers_own_parameters w i r n :
  reachable w ->
  opt_params (baseline_opt (self w)) = net_parameters (baseline_net (self w)) /\
  opt_params (rl_opt (self w)) = net_parameters (seq2slate_net (self w)) /\
  let w1 := snd (train_baseline i r n w) in
  (forall p, ~ In p (net_parameters (baseline_net (self w))) ->
     param_data w1 !! p = param_data w !! p) /\
  (forall b p, ~ In p (net_parameters (seq2slate_net (self w))) ->
     param_data (snd (train_seq2slate i r b n w1)) !! p = param_data w1 !! p).
Proof.
  intros Hw. destruct (reachable_bound w Hw) as [Hrl Hbl].
  split; [exact Hbl|]. split; [exact Hrl|]. split.
  - intros p Hp.
    destruct (train_baseline_outcome i r n w) as [[bl ->]|[(e & -> & _)| ->]];
      try reflexivity.
    apply after_update_frame. cbn [get_opt]. now rewrite Hbl.
  - intros b p Hp.
    pose proof (reachable_bound _ (reach_baseline i r n w Hw)) as [Hrl1 _].
    assert (Hnet : seq2slate_net (self (snd (train_baseline i r n w)))
                   = seq2slate_net (self w)).
    { destruct (train_baseline_self i r n w) as [-> | [st ->]]; reflexivity. }
    destruct (train_seq2slate_outcome i r b n (snd (train_baseline i r n w)))
      as [(lp & rl & adv & -> & _)|[e ->]]; try reflexivity.
    apply after_update_frame. cbn [get_opt]. now rewrite Hrl1, Hnet.
Qed.

(** C10. In a completed call, the [b] of the advantage that the policy
    loss multiplies and of the advantage that is returned is the output of
    the baseline network on the parameter values at entry, [param_data w];
    the log-probabilities are computed on the values after the baseline
    update, [param_data w1]. *)
Theorem baseline_not_reevaluated w i r n lp adv rl bl w' :
  slate_reward i = Some r ->
  shape0 (state_float_features i) = Return n ->
  train (PreprocessedTrainingBatch (RankingInput i)) w
    = (Return (lp, adv, rl, bl), w') ->
  exists loss wt wl bloss,
    let b := detach (baseline_value w i) in
    let w1 := after_update BaselineOpt loss w in
    bl = numpy (detach loss) /\
    lp = detach (call_net (seq2slate_net (self w)) (param_data w1) i) /\
    importance_sampling (self w) i lp = Return wt /\
    mul (neg wt)
      (call_net (seq2slate_net (self w)) (param_data w1) i) = Return wl /\
    sub r b = Return adv /\
    mul wl adv = Return bloss /\
    nd_data rl = [1 / INR n * sum_list (data bloss)].
Proof.
  intros Hr Hn Ht.
  destruct (train_completed _ _ _ _ _ _ _ _ _ Hr Hn Ht)
    as (d & bl0 & lp0 & wt & wl & bloss & rl0 & Hn0 & Hd & Hbl0 & _ & Hlp & Hs1
        & Hs2 & _ & Hw & Hwl & Hadv & Hbl & -> & -> & -> & -> & _).
  exists bl0, wt, wl, bloss. cbv zeta. subst lp0.
  repeat split; assumption.
Qed.
End Frame.

(** ** The properties on the instance *)

Lemma run1_returns : is_return (fst Demo.run1) = true.
Proof. vm_compute. reflexivity. Qed.

Lemma run1_log_probs : data (result Demo.run1).1.1.1 = [ln (1 / 2)].
Proof. vm_compute. reflexivity. Qed.

Lemma run1_log_probs_wf : wf_tensor (result Demo.run1).1.1.1.
Proof. vm_compute. reflexivity. Qed.

Lemma run1_baseline_wf : wf_tensor (baseline_value Demo.start1 Demo.input1).
Proof. vm_compute. reflexivity. Qed.

Lemma off_policy_rl_loss_witness :
  nd_data (result Demo.run1).1.2 = [- 2 * ln (1 / 2) * (3 - 0)].
Proof.
  destruct (off_policy_rl_loss Demo.start1 Demo.input1
              (leaf [] [3]) (leaf [] [1 / 4]) 1 _ _ _ _ _
              eq_refl eq_refl eq_refl eq_refl eq_refl eq_refl eq_refl eq_refl
              run1_log_probs_wf run1_baseline_wf
              (returns_result _ run1_returns)) as (_ & _ & H).
  destruct (H eq_refl run1_log_probs eq_refl) as (_ & x & y & Hx & Hy & Hrl).
  injection Hx as <-. injection Hy as <-. exact Hrl.
Defined.

Lemma run2_returns : is_return (fst Demo.run2) = true.
Proof. vm_compute. reflexivity. Qed.

Lemma run2_baseline_wf :
  wf_tensor (baseline_value (Demo.start2 false) (Demo.input2 (Some Demo.probs2))).
Proof. vm_compute. reflexivity. Qed.


Lemma advantage_is_reward_minus_baseline_witness :
  shape (result Demo.run2).1.1.2 = [2%nat] /\
  data (result Demo.run2).1.1.2 = [1 - 0; 3 - 0] /\
  requires_grad (result Demo.run2).1.1.2 = false.
Proof.
  exact (advantage_is_reward_minus_baseline (Demo.start2 false)
           (Demo.input2 (Some Demo.probs2)) (leaf [2%nat] [1; 3]) 2 _ _ _ _ _
           eq_refl eq_refl eq_refl run2_baseline_wf
           (returns_result _ run2_returns)).
Defined.

Lemma baseline_not_reevaluated_witness :
  exists loss wt wl bloss,
    (result Demo.run2).2 = numpy (detach loss) /\
    (result Demo.run2).1.1.1 =
      detach (call_net Demo.policy
                (param_data (after_update BaselineOpt loss (Demo.start2 false)))
                (Demo.input2 (Some Demo.probs2))) /\
    importance_sampling (self (Demo.start2 false))
      (Demo.input2 (Some Demo.probs2)) (result Demo.run2).1.1.1 = Return wt /\
    mul (neg wt)
      (call_net Demo.policy
         (param_data (after_update BaselineOpt loss (Demo.start2 false)))
         (Demo.input2 (Some Demo.probs2))) = Return wl /\
    sub (leaf [2%nat] [1; 3])
      (detach (baseline_value (Demo.start2 false)
                 (Demo.input2 (Some Demo.probs2))))
      = Return (result Demo.run2).1.1.2 /\
    mul wl (result Demo.run2).1.1.2 = Return bloss /\
    nd_data (result Demo.run2).1.2 = [1 / INR 2 * sum_list (data bloss)].
Proof.
  exact (baseline_not_reevaluated (Demo.start2 false)
           (Demo.input2 (Some Demo.probs2)) (leaf [2%nat] [1; 3]) 2 _ _ _ _ _
           eq_refl eq_refl (returns_result _ run2_returns)).
Defined.

(** After the call the baseline network predicts 4/1000, not the 0 that
    the advantage of that call was computed from. *)
Lemma run2_baseline_moved :
  data (baseline_value (Demo.start2 false) (Demo.input2 (Some Demo.probs2)))
    = [0; 0] /\
  data (baseline_value (snd Demo.run2) (Demo.input2 (Some Demo.probs2)))
    = [4 / 1000; 4 / 1000].
Proof.
  split; [reflexivity|]. vm_compute. f_equal; [|f_equal]; lra.
Qed.

(** A second call on the same batch computes its advantage from the
    baseline as the first call left it. *)
Lemma second_call_advantage :
  data (result (train (PreprocessedTrainingBatch
                         (RankingInput (Demo.input2 (Some Demo.probs2))))
                  (snd Demo.run2))).1.1.2
  = [1 - 4 / 1000; 3 - 4 / 1000].
Proof. vm_compute. f_equal; [|f_equal]; lra. Qed.

(** C2: two episodes and a reward of length 1.  The call raises
    AssertionError, and by then the baseline optimizer has been stepped. *)
Lemma shape_mismatch_after_baseline_step :
  let w := Demo.start2 false in
  let run := train (PreprocessedTrainingBatch
                      (RankingInput Demo.input_short_reward)) w in
  shape0 (state_float_features Demo.input_short_reward) = Return 2%nat /\
  option_map (fun r => Shape.numel (shape r))
    (slate_reward Demo.input_short_reward) = Some 1%nat /\
  fst run = Raise AssertionError /\
  steps BaselineOpt (trace w) = 0%nat /\
  steps BaselineOpt (trace (snd run)) = 1%nat.
Proof.
  cbv zeta.
  split; [|split; [|split; [|split]]]; vm_compute; reflexivity.
Qed.

Lemma shape_mismatch_failure_witness :
  exists e w',
    train (PreprocessedTrainingBatch (RankingInput Demo.input_short_reward))
      (Demo.start2 false) = (Raise e, w') /\
    minibatch (self w') = minibatch (self (Demo.start2 false)) /\
    steps RlOpt (trace w') = steps RlOpt (trace (Demo.start2 false)) /\
    ((e = AssertionError /\
      steps BaselineOpt (trace w')
        = S (steps BaselineOpt (trace (Demo.start2 false))))
     \/ (e <> AssertionError /\
         steps BaselineOpt (trace w')
           = steps BaselineOpt (trace (Demo.start2 false)) /\
         param_data w' = param_data (Demo.start2 false))).
Proof.
  apply (shape_mismatch_failure (Demo.start2 false) Demo.input_short_reward
           (leaf [1%nat] [1]) 2 eq_refl eq_refl); [simpl; lia | reflexivity].
Defined.

(** C4: off-policy, two episodes, no behavior probabilities.  The error is
    a TypeError, not an assertion failure, and the baseline optimizer has
    been stepped. *)
Lemma missing_behavior_probs_type_error :
  let w := Demo.start2 false in
  let run := train (PreprocessedTrainingBatch
                      (RankingInput (Demo.input2 None))) w in
  on_policy (self w) = false /\
  tgt_out_probs (Demo.input2 None) = None /\
  fst run = Raise TypeError /\
  steps BaselineOpt (trace (snd run)) = 1%nat.
Proof.
  cbv zeta.
  split; [|split; [|split]]; vm_compute; reflexivity.
Qed.

Lemma missing_behavior_probs_failure_witness :
  exists e w',
    train (PreprocessedTrainingBatch (RankingInput (Demo.input2 None)))
      (Demo.start2 false) = (Raise e, w') /\
    minibatch (self w') = minibatch (self (Demo.start2 false)) /\
    steps RlOpt (trace w') = steps RlOpt (trace (Demo.start2 false)).
Proof.
  destruct (missing_behavior_probs_failure (Demo.start2 false)
              (Demo.input2 None) eq_refl eq_refl)
    as (e & w' & H1 & H2 & H3 & _).
  exists e, w'. auto.
Defined.

Lemma on_policy_ignores_behavior_probs_witness :
  train (PreprocessedTrainingBatch
           (RankingInput (with_tgt_out_probs None (Demo.input2 (Some Demo.probs2)))))
    (Demo.start2 true)
  = train (PreprocessedTrainingBatch
             (RankingInput (Demo.input2 (Some Demo.probs2))))
      (Demo.start2 true).
Proof.
  apply (on_policy_ignores_behavior_probs (Demo.start2 true)
           (Demo.input2 (Some Demo.probs2)) None eq_refl
           (fun _ => eq_refl) (fun _ => eq_refl)).
Defined.

Lemma missing_reward_rejected_witness :
  train (PreprocessedTrainingBatch (RankingInput Demo.input_no_reward))
    (Demo.start2 true)
  = (Raise AssertionError, Demo.start2 true).
Proof.
  apply missing_reward_rejected; [reflexivity | discriminate].
Defined.

(** The baseline phase leaves the parameter of the policy network as it
    was. *)
Lemma optimizers_own_parameters_witness :
  param_data
    (snd (train_baseline (Demo.input2 (Some Demo.probs2))
            (leaf [2%nat] [1; 3]) 2 (Demo.start2 false))) !! 2%positive
  = param_data (Demo.start2 false) !! 2%positive.
Proof.
  destruct (optimizers_own_parameters (Demo.start2 false)
              (Demo.input2 (Some Demo.probs2)) (leaf [2%nat] [1; 3]) 2
              (reach_init Demo.policy Demo.baseline false 2 false _ _))
    as (_ & _ & H & _).
  apply H. simpl. intros [E|[]]. discriminate E.
Defined.

(** * Further properties of [train]

    The effects of a call in the order the code makes them, the calls that
    raise on entry or in the baseline phase, the shapes of what is
    returned, and what no call changes. *)

(** ** The worlds a call can leave *)

Section Calls.

Context `{TB : TorchBackend}.

Lemma train_worlds batch w :
  (exists e, train batch w = (Raise e, w))
  \/ train batch w = (Raise RuntimeError, zeroed BaselineOpt w)
  \/ (exists e bl, train batch w = (Raise e, after_update BaselineOpt bl w))
  \/ (exists lp adv bl rl,
        train batch w =
        (Return (lp, adv, numpy (detach rl), numpy (detach bl)),
         logged (EvLog (minibatch (self w) + 1)
                   (numpy (detach rl)) (numpy (detach bl)))
           (incremented
              (after_update RlOpt rl (after_update BaselineOpt bl w))))).
Proof.
  destruct batch as [[i|]|]; try (left; eexists; reflexivity).
  destruct (shape0 (state_float_features i)) as [e|n] eqn:Hn.
  { left. exists e. unfold train. now rewrite !bind_ret_l, Hn. }
  destruct (slate_reward i) as [r|] eqn:Hr.
  2:{ left. exists AssertionError. unfold train.
      now rewrite !bind_ret_l, Hn, bind_lift_l, Hr. }
  rewrite (train_unfold i r n w Hr Hn).
  destruct (train_baseline_outcome i r n w) as [[bl ->]|[(e & -> & _)| ->]];
    [|left; eauto|right; left; reflexivity].
  destruct (train_seq2slate_outcome i r (baseline_value w i) n
              (after_update BaselineOpt bl w))
    as [(lp & rl & adv & -> & ->)|[e ->]];
    [|right; right; left; eauto].
  right; right; right. exists (detach lp), adv, bl, rl. reflexivity.
Qed.

Lemma steps_logged_log o n rl bl w :
  steps o (trace (logged (EvLog n rl bl) w)) = steps o (trace w).
Proof.
  unfold logged. cbn [trace]. rewrite steps_app.
  destruct o; unfold steps at 2; simpl; lia.
Qed.

Lemma binop_shape_same f a b t :
  binop f a b = Return t -> shape a = shape b -> shape t = shape a.
Proof.
  unfold binop. intros H Hs. rewrite <- Hs, broadcast_same in H.
  now injection H as <-.
Qed.

Lemma sum_squares_nonneg l k :
  0 <= sum_list (zip_with_R (fun y x => (y - x) ^ 2) l k).
Proof.
  revert k. induction l as [|y l IH]; intros [|x k]; simpl; try lra.
  specialize (IH k). pose proof (pow2_ge_0 (y - x)). simpl in *. lra.
Qed.

Lemma sum_squares_zero l k :
  length l = length k ->
  sum_list (zip_with_R (fun y x => (y - x) ^ 2) l k) = 0 <-> l = k.
Proof.
  revert k. induction l as [|y l IH]; intros [|x k] Hl; simpl in Hl; try lia.
  - simpl. split; reflexivity.
  - injection Hl as Hl. specialize (IH k Hl).
    pose proof (sum_squares_nonneg l k) as Hs.
    pose proof (pow2_ge_0 (y - x)) as Hp.
    cbn [zip_with_R sum_list fold_right].
    change (fold_right Rplus 0 (zip_with_R (fun y x => (y - x) ^ 2) l k))
      with (sum_list (zip_with_R (fun y x => (y - x) ^ 2) l k)).
    split.
    + intros H.
      assert (H1 : (y - x) ^ 2 = 0) by lra.
      assert (H2 : sum_list (zip_with_R (fun y x => (y - x) ^ 2) l k) = 0) by lra.
      apply IH in H2. subst k. f_equal.
      assert (y - x = 0); [|lra].
      destruct (Req_dec (y - x) 0) as [E|E]; [exact E|].
      exfalso. apply (pow_nonzero _ 2) in E. contradiction.
    + intros E. injection E as -> ->.
      assert (Hk : sum_list (zip_with_R (fun y x => (y - x) ^ 2) k k) = 0)
        by (now apply IH).
      rewrite Hk. lra.
Qed.

Lemma logs_app l k : logs (l ++ k) = (logs l + logs k)%nat.
Proof. unfold logs. now rewrite List.filter_app, length_app. Qed.

Lemma logs_after_update o loss w :
  logs (trace (after_update o loss w)) = logs (trace w).
Proof.
  unfold after_update, stepped, accumulated, zeroed. cbn [trace].
  rewrite !logs_app. unfold logs at 2 3 4. simpl. lia.
Qed.

Lemma logs_zeroed o w : logs (trace (zeroed o w)) = logs (trace w).
Proof.
  unfold zeroed. cbn [trace]. rewrite logs_app. unfold logs at 2. simpl. lia.
Qed.

Lemma train_baseline_config i r n w :
  config (self (snd (train_baseline i r n w))) = config (self w).
Proof.
  destruct (train_baseline_self i r n w) as [-> | [st ->]]; reflexivity.
Qed.

Lemma train_baseline_minibatch_size m i r n w :
  train_baseline i r n (with_minibatch_size m w)
  = (fst (train_baseline i r n w),
     with_minibatch_size m (snd (train_baseline i r n w))).
Proof.
  unfold train_baseline. rewrite !bind_get_self, !bind_get_params.
  cbn [self with_minibatch_size baseline_net param_data].
  destruct (float_div_int n) as [e|c];
    [rewrite !bind_lift_raise_l; reflexivity | rewrite !bind_lift_l].
  destruct (sub _ r) as [e|d];
    [rewrite !bind_lift_raise_l; reflexivity | rewrite !bind_lift_l].
  unfold zero_grad. rewrite !bind_modify_l. unfold backward.
  destruct (requires_grad _); reflexivity.
Qed.

Lemma train_seq2slate_minibatch_size m i r b n w :
  train_seq2slate i r b n (with_minibatch_size m w)
  = (fst (train_seq2slate i r b n w),
     with_minibatch_size m (snd (train_seq2slate i r b n w))).
Proof.
  unfold train_seq2slate. rewrite !bind_get_self, !bind_get_params.
  cbn [self with_minibatch_size seq2slate_net param_data].
  set (lp := call_net _ _ _).
  destruct (Shape.eqb _ _ && Shape.eqb _ _);
    [rewrite !bind_assert_true | rewrite !bind_assert_false; reflexivity].
  destruct (negb _ && _);
    [rewrite !bind_assert_true | rewrite !bind_assert_false; reflexivity].
  change (importance_sampling _ i lp) with (importance_sampling (self w) i lp).
  destruct (importance_sampling _ _ _) as [e|wt];
    [rewrite !bind_lift_raise_l; reflexivity | rewrite !bind_lift_l].
  destruct (mul (neg wt) lp) as [e|wl];
    [rewrite !bind_lift_raise_l; reflexivity | rewrite !bind_lift_l].
  destruct (sub r (detach b)) as [e|adv];
    [rewrite !bind_lift_raise_l; reflexivity | rewrite !bind_lift_l].
  destruct (mul wl adv) as [e|bloss];
    [rewrite !bind_lift_raise_l; reflexivity | rewrite !bind_lift_l].
  destruct (float_div_int n) as [e|c];
    [rewrite !bind_lift_raise_l; reflexivity | rewrite !bind_lift_l].
  unfold zero_grad. rewrite !bind_modify_l. unfold backward.
  destruct (requires_grad _); reflexivity.
Qed.

Lemma train_config batch w :
  config (self (snd (train batch w))) = config (self w).
Proof.
  destruct (train_worlds batch w)
    as [[e ->]|[->|[(e & bl0 & ->)|(lp0 & adv0 & bl0 & rl0 & ->)]]];
    reflexivity.
Qed.

End Calls.

(** ** Effects of a call *)

Section Effects_of_a_call.

Context `{TB : TorchBackend}.

(** X1. A call that returns has made exactly these calls, in this order:
    zero_grad, backward and step on the baseline optimizer with the
    baseline loss, then zero_grad, backward and step on the policy
    optimizer with the policy loss, then one log record carrying the new
    step counter and the two losses that are returned. *)
Theorem completed_call_effects batch w lp adv rl bl w' :
  train batch w = (Return (lp, adv, rl, bl), w') ->
  trace w' =
  trace w ++
  [EvZeroGrad BaselineOpt; EvBackward (nd_data bl); EvStep BaselineOpt;
   EvZeroGrad RlOpt; EvBackward (nd_data rl); EvStep RlOpt;
   EvLog (minibatch (self w) + 1) rl bl].
Proof.
  intros Ht.
  destruct (train_worlds batch w)
    as [[e H]|[H|[(e & bl0 & H)|(lp0 & adv0 & bl0 & rl0 & H)]]];
    rewrite H in Ht; try discriminate.
  injection Ht as <- <- <- <- <-.
  unfold logged, incremented, after_update, stepped, accumulated, zeroed.
  cbn [trace numpy detach nd_data data]. now rewrite <- !app_assoc.
Qed.

(** X2. Over any call, returning or raising: the policy optimizer is
    stepped once if the call returns and not at all if it raises; the
    baseline optimizer is stepped at most once, and exactly once if the
    call returns; and when the baseline optimizer was not stepped, no
    parameter value and nothing of the trainer object has changed. *)
Theorem optimizer_steps_per_call batch w :
  steps RlOpt (trace (snd (train batch w))) =
    (steps RlOpt (trace w)
     + if is_return (fst (train batch w)) then 1 else 0)%nat /\
  (steps BaselineOpt (trace w)
     <= steps BaselineOpt (trace (snd (train batch w)))
     <= S (steps BaselineOpt (trace w)))%nat /\
  (is_return (fst (train batch w)) = true ->
   steps BaselineOpt (trace (snd (train batch w)))
     = S (steps BaselineOpt (trace w))) /\
  (steps BaselineOpt (trace (snd (train batch w)))
     = steps BaselineOpt (trace w) ->
   param_data (snd (train batch w)) = param_data w /\
   self (snd (train batch w)) = self w).
Proof.
  destruct (train_worlds batch w)
    as [[e ->]|[->|[(e & bl0 & ->)|(lp0 & adv0 & bl0 & rl0 & ->)]]];
    cbn [fst snd is_return];
    rewrite ?steps_logged_log; unfold incremented; cbn [trace];
    rewrite ?steps_after_update, ?steps_zeroed; cbn [is_step];
    repeat split; try lia; try discriminate.
Qed.

(** X3. A call changes no parameter that belongs to neither network,
    whether it returns or raises. *)
Theorem train_frame batch w p :
  reachable w ->
  ~ In p (net_parameters (seq2slate_net (self w))) ->
  ~ In p (net_parameters (baseline_net (self w))) ->
  param_data (snd (train batch w)) !! p = param_data w !! p.
Proof.
  intros Hw Hp Hb. destruct (reachable_bound w Hw) as [Hrl Hbl].
  assert (Hfb : forall bl,
    param_data (after_update BaselineOpt bl w) !! p = param_data w !! p).
  { intros bl. apply after_update_frame. cbn [get_opt]. now rewrite Hbl. }
  destruct (train_worlds batch w)
    as [[e ->]|[->|[(e & bl0 & ->)|(lp0 & adv0 & bl0 & rl0 & ->)]]];
    cbn [snd]; try reflexivity; try apply Hfb.
  cbn [logged incremented param_data].
  rewrite after_update_frame; [apply Hfb|].
  change (get_opt RlOpt (self (after_update BaselineOpt bl0 w)))
    with (rl_opt (self w)).
  now rewrite Hrl.
Qed.

(** X4. No call changes what the constructor fixed: [on_policy],
    [use_gpu], the two networks, [minibatch_size], and each optimizer's
    parameter list, learning rate and amsgrad flag. *)
Theorem train_keeps_configuration batch w :
  config (self (snd (train batch w))) = config (self w).
Proof. exact (train_config batch w). Qed.

(** X5. However many calls have been made, each optimizer runs on the
    parameters of its own network with learning rate 1e-3 and amsgrad
    on. *)
Theorem reachable_hyperparameters w :
  reachable w ->
  hyper (rl_opt (self w))
    = (net_parameters (seq2slate_net (self w)), 1 / 1000, true) /\
  hyper (baseline_opt (self w))
    = (net_parameters (baseline_net (self w)), 1 / 1000, true).
Proof.
  induction 1 as [| batch w Hw IH | i r n w Hw IH].
  - split; reflexivity.
  - pose proof (train_config batch w) as Hc. unfold config in Hc.
    destruct IH as [IH1 IH2]. split; congruence.
  - pose proof (train_baseline_config i r n w) as Hc. unfold config in Hc.
    destruct IH as [IH1 IH2]. split; congruence.
Qed.

(** X14. In every world a trainer can reach, the step counter is the
    number of steps the policy optimizer has made, which is also the
    number of log records, and the baseline optimizer has made at least as
    many steps. *)
Theorem counter_counts_policy_steps w :
  reachable w ->
  minibatch (self w) = Z.of_nat (steps RlOpt (trace w)) /\
  logs (trace w) = steps RlOpt (trace w) /\
  (steps RlOpt (trace w) <= steps BaselineOpt (trace w))%nat.
Proof.
  induction 1 as [| batch w Hw IH | i r n w Hw IH].
  - cbn [trace self]. unfold steps, logs. simpl. repeat split; lia.
  - destruct IH as (IH1 & IH2 & IH3).
    destruct (train_worlds batch w)
      as [[e ->]|[->|[(e & bl0 & ->)|(lp0 & adv0 & bl0 & rl0 & ->)]]];
      cbn [snd].
    + auto.
    + rewrite !steps_zeroed, logs_zeroed. auto.
    + rewrite !steps_after_update, logs_after_update. cbn [is_step].
      change (minibatch (self (after_update BaselineOpt bl0 w)))
        with (minibatch (self w)).
      repeat split; lia.
    + rewrite !steps_logged_log. unfold logged at 1 2. cbn [trace self].
      rewrite logs_app. unfold incremented. cbn [trace self set_minibatch minibatch].
      rewrite !steps_after_update, !logs_after_update. cbn [is_step].
      change (minibatch (self (after_update RlOpt rl0
                (after_update BaselineOpt bl0 w))))
        with (minibatch (self w)).
      unfold logs at 2. cbn [List.filter is_log length].
      repeat split; lia.
  - destruct IH as (IH1 & IH2 & IH3).
    destruct (train_baseline_outcome i r n w) as [[bl ->]|[(e & -> & _)| ->]];
      cbn [snd].
    + rewrite !steps_after_update, logs_after_update. cbn [is_step].
      change (minibatch (self (after_update BaselineOpt bl w)))
        with (minibatch (self w)).
      repeat split; lia.
    + auto.
    + rewrite !steps_zeroed, logs_zeroed. auto.
Qed.

(** X15. [minibatch_size] is stored and never read: with another value
    a call has the same outcome and leaves the same world, that value
    apart. *)
Theorem minibatch_size_is_not_read m batch w :
  train batch (with_minibatch_size m w)
  = (fst (train batch w), with_minibatch_size m (snd (train batch w))).
Proof.
  destruct batch as [[i|]|]; try reflexivity.
  destruct (shape0 (state_float_features i)) as [e|n] eqn:Hn.
  { unfold train. rewrite !bind_ret_l, Hn. reflexivity. }
  destruct (slate_reward i) as [r|] eqn:Hr.
  2:{ unfold train. rewrite !bind_ret_l, Hn, !bind_lift_l, Hr. reflexivity. }
  rewrite !(train_unfold i r n _ Hr Hn).
  rewrite train_baseline_minibatch_size.
  destruct (train_baseline i r n w) as [[e|[b bl]] w1]; [reflexivity|].
  cbn [fst snd]. rewrite train_seq2slate_minibatch_size.
  destruct (train_seq2slate i r b n w1) as [[e|[[b' lp] rl]] w2]; [reflexivity|].
  cbn [fst snd].
  destruct (sub r b'); reflexivity.
Qed.

(** X16. The baseline phase does not touch the policy optimizer (its Adam
    state included) and the policy phase does not touch the baseline
    optimizer, whether the phase completes or raises. *)
Theorem phases_keep_other_optimizer i r b n w :
  rl_opt (self (snd (train_baseline i r n w))) = rl_opt (self w) /\
  baseline_opt (self (snd (train_seq2slate i r b n w))) = baseline_opt (self w).
Proof.
  split.
  - destruct (train_baseline_outcome i r n w) as [[bl ->]|[(e & -> & _)| ->]];
      reflexivity.
  - destruct (train_seq2slate_outcome i r b n w)
      as [(lp & rl & adv & -> & _)|[e ->]]; reflexivity.
Qed.

(** X17. A call that raises, for whatever reason, leaves the policy
    optimizer exactly as it was. *)
Theorem raised_call_keeps_policy_optimizer batch w :
  is_return (fst (train batch w)) = false ->
  rl_opt (self (snd (train batch w))) = rl_opt (self w).
Proof.
  destruct (train_worlds batch w)
    as [[e ->]|[->|[(e & bl0 & ->)|(lp0 & adv0 & bl0 & rl0 & ->)]]];
    cbn [fst snd is_return]; intros H; try discriminate; reflexivity.
Qed.


End Effects_of_a_call.

(** ** Calls that raise *)

Section Raising_calls.

Context `{TB : TorchBackend}.

(** X6. On a batch with no episode (a first dimension of size 0) and a
    reward, [1.0 / batch_size] raises ZeroDivisionError before anything is
    changed. *)
Theorem empty_batch_raises w i r :
  slate_reward i = Some r ->
  shape0 (state_float_features i) = Return 0%nat ->
  train (PreprocessedTrainingBatch (RankingInput i)) w
    = (Raise ZeroDivisionError, w).
Proof.
  intros Hr Hn. rewrite (train_unfold i r 0 w Hr Hn).
  unfold train_baseline. rewrite bind_get_self, bind_get_params.
  reflexivity.
Qed.

(** X7. State features without any dimension raise IndexError at
    [shape[0]], before the reward is looked at: also when the reward is
    missing. *)
Theorem features_without_batch_dimension w i :
  shape (state_float_features i) = [] ->
  train (PreprocessedTrainingBatch (RankingInput i)) w = (Raise IndexError, w).
Proof.
  intros Hs. unfold train. rewrite !bind_ret_l. unfold shape0. now rewrite Hs.
Qed.

(** X8. A reward whose shape does not broadcast against the squeezed
    baseline output raises RuntimeError at [b - reward], before anything is
    changed. *)
Theorem unbroadcastable_reward w i r n :
  slate_reward i = Some r ->
  shape0 (state_float_features i) = Return (S n) ->
  Shape.broadcast (shape (baseline_value w i)) (shape r) = None ->
  train (PreprocessedTrainingBatch (RankingInput i)) w = (Raise RuntimeError, w).
Proof.
  intros Hr Hn Hb. rewrite (train_unfold i r (S n) w Hr Hn).
  unfold train_baseline. rewrite bind_get_self, bind_get_params.
  cbn [float_div_int]. rewrite bind_lift_l.
  change (squeeze (call_net (baseline_net (self w)) (param_data w) i))
    with (baseline_value w i).
  unfold sub, binop. rewrite Hb. reflexivity.
Qed.

(** X9. When neither the baseline output nor the reward requires grad,
    [baseline_loss.backward()] raises RuntimeError: the gradient buffers of
    the baseline optimizer have been zeroed, and nothing else has
    changed. *)
Theorem baseline_without_grad w i r n s :
  slate_reward i = Some r ->
  shape0 (state_float_features i) = Return (S n) ->
  Shape.broadcast (shape (baseline_value w i)) (shape r) = Some s ->
  requires_grad (baseline_value w i) = false ->
  requires_grad r = false ->
  train (PreprocessedTrainingBatch (RankingInput i)) w
    = (Raise RuntimeError, zeroed BaselineOpt w).
Proof.
  intros Hr Hn Hb Hgb Hgr. rewrite (train_unfold i r (S n) w Hr Hn).
  unfold train_baseline. rewrite bind_get_self, bind_get_params.
  cbn [float_div_int]. rewrite bind_lift_l.
  change (squeeze (call_net (baseline_net (self w)) (param_data w) i))
    with (baseline_value w i).
  unfold sub, binop. rewrite Hb, bind_lift_l.
  unfold zero_grad. rewrite bind_modify_l.
  unfold backward. cbn [scale torch_sum pow2 pointwise requires_grad].
  rewrite Hgb, Hgr. reflexivity.
Qed.

(** X10. When the baseline phase completes and the log-probabilities do
    not require grad, the call raises AssertionError in the world the
    baseline phase left: the baseline optimizer has been stepped, the
    policy optimizer has not. *)
Theorem policy_without_grad w i r n :
  slate_reward i = Some r ->
  shape0 (state_float_features i) = Return n ->
  is_return (fst (train_baseline i r n w)) = true ->
  out_requires_grad
    (net_forward (seq2slate_net (self w))
       (param_data (snd (train_baseline i r n w))) i) = false ->
  train (PreprocessedTrainingBatch (RankingInput i)) w
    = (Raise AssertionError, snd (train_baseline i r n w)) /\
  steps BaselineOpt (trace (snd (train_baseline i r n w)))
    = S (steps BaselineOpt (trace w)) /\
  steps RlOpt (trace (snd (train_baseline i r n w))) = steps RlOpt (trace w).
Proof.
  intros Hr Hn Hok Hg. rewrite (train_unfold i r n w Hr Hn).
  destruct (train_baseline_outcome i r n w) as [[bl Hb]|[(e & Hb & _)| Hb]];
    rewrite Hb in Hok |- *; try discriminate.
  rewrite Hb in Hg. cbn [snd] in Hg |- *.
  rewrite !steps_after_update. cbn [is_step].
  split; [|lia].
  unfold train_seq2slate. rewrite bind_get_self, bind_get_params.
  change (seq2slate_net (self (after_update BaselineOpt bl w)))
    with (seq2slate_net (self w)).
  cbn [call_net requires_grad detach negb andb].
  rewrite Hg.
  destruct (Shape.eqb _ _ && Shape.eqb _ _); reflexivity.
Qed.

(** X11. A reward with a dimension of size 1, such as a column of shape
    (batch, 1) or a single reward of shape (1,), is never accepted:
    [squeeze()] has removed every such dimension from [b], so the shapes
    cannot agree and the call raises. *)
Theorem reward_with_unit_dimension_raises w i r :
  slate_reward i = Some r ->
  In 1%nat (shape r) ->
  is_return (fst (train (PreprocessedTrainingBatch (RankingInput i)) w)) = false.
Proof.
  intros Hr Hs.
  destruct (train _ w) as [[e|[[[lp adv] rl] bl]] w'] eqn:Ht; [reflexivity|].
  exfalso.
  apply train_return in Ht
    as (i' & r' & n & b & bl0 & w1 & lp0 & rl0 & w2 & Hb & Hr' & _ & Hbase
        & Hpol & _).
  simplify_eq.
  apply train_baseline_return in Hbase as (-> & _).
  apply train_seq2slate_return in Hpol as (_ & _ & Hsb & _).
  apply (squeeze_no_one (shape (call_net (baseline_net (self w)) (param_data w) i'))).
  change (Shape.squeeze (shape (call_net (baseline_net (self w)) (param_data w) i')))
    with (shape (baseline_value w i')).
  now rewrite Hsb.
Qed.

(** X18. Off-policy, the shape of the behavior probabilities is not
    asserted: when the baseline phase completes, both assertions hold and
    the probabilities do not broadcast against the log-probabilities, the
    division raises RuntimeError after the baseline optimizer has been
    stepped. *)
Theorem unbroadcastable_behavior_probs w i r n p :
  on_policy (self w) = false ->
  slate_reward i = Some r ->
  tgt_out_probs i = Some p ->
  shape0 (state_float_features i) = Return n ->
  is_return (fst (train_baseline i r n w)) = true ->
  let w1 := snd (train_baseline i r n w) in
  let lp := call_net (seq2slate_net (self w)) (param_data w1) i in
  shape (baseline_value w i) = shape r ->
  shape r = shape lp ->
  requires_grad lp = true ->
  Shape.broadcast (shape lp) (shape p) = None ->
  train (PreprocessedTrainingBatch (RankingInput i)) w = (Raise RuntimeError, w1) /\
  steps BaselineOpt (trace w1) = S (steps BaselineOpt (trace w)).
Proof.
  intros Hoff Hr Hp Hn Hok w1 lp Hs1 Hs2 Hg Hbr.
  rewrite (train_unfold i r n w Hr Hn). subst w1 lp.
  destruct (train_baseline_outcome i r n w) as [[bl Hb]|[(e & Hb & _)| Hb]];
    rewrite Hb in Hok, Hs2, Hg, Hbr |- *; try discriminate.
  cbn [snd] in Hs2, Hg, Hbr |- *.
  rewrite !steps_after_update. cbn [is_step].
  split; [|lia].
  unfold train_seq2slate. rewrite bind_get_self, bind_get_params.
  change (seq2slate_net (self (after_update BaselineOpt bl w)))
    with (seq2slate_net (self w)).
  apply shape_eqb_eq in Hs1, Hs2.
  cbn [detach shape requires_grad negb andb].
  rewrite Hs1, Hs2, Hg, !bind_assert_true.
  unfold importance_sampling.
  change (on_policy (self (after_update BaselineOpt bl w)))
    with (on_policy (self w)).
  rewrite Hoff, Hp. cbn [negb].
  unfold div, binop. cbn [torch_exp pointwise detach shape].
  rewrite Hbr. reflexivity.
Qed.

End Raising_calls.

(** ** What a call returns *)

Section Returned.

Context `{TB : TorchBackend}.

(** X12. What a call returns: log-probabilities and advantage have the
    shape of the reward, which is the squeezed shape of the baseline
    output and so has no dimension of size 1; the log-probabilities do not
    require grad; each loss is a 0-dimensional array of one number. *)
Theorem result_shapes w i r n lp adv rl bl w' :
  slate_reward i = Some r ->
  shape0 (state_float_features i) = Return n ->
  train (PreprocessedTrainingBatch (RankingInput i)) w
    = (Return (lp, adv, rl, bl), w') ->
  shape lp = shape r /\ shape adv = shape r /\
  shape r = Shape.squeeze
              (out_shape (net_forward (baseline_net (self w)) (param_data w) i)) /\
  ~ In 1%nat (shape r) /\
  requires_grad lp = false /\
  nd_shape rl = [] /\ length (nd_data rl) = 1%nat /\
  nd_shape bl = [] /\ length (nd_data bl) = 1%nat.
Proof.
  intros Hr Hn Ht.
  destruct (train_completed _ _ _ _ _ _ _ _ _ Hr Hn Ht)
    as (d & bl0 & lp0 & wt & wl & bloss & rl0 & Hn0 & Hd & -> & _ & _ & Hs1 & Hs2
        & _ & _ & _ & Hadv & _ & -> & -> & -> & -> & _).
  apply binop_shape_same in Hadv; [|symmetry; exact Hs1].
  repeat split; try reflexivity; try assumption.
  - symmetry. exact Hs2.
  - symmetry. exact Hs1.
  - rewrite <- Hs1. apply squeeze_no_one.
Qed.

(** X13. The returned baseline loss is one non-negative number, and it
    is 0 exactly when the baseline network predicted every reward. *)
Theorem baseline_loss_zero_iff_exact w i r n lp adv rl bl w' :
  slate_reward i = Some r ->
  shape0 (state_float_features i) = Return n ->
  wf_tensor r ->
  wf_tensor (baseline_value w i) ->
  train (PreprocessedTrainingBatch (RankingInput i)) w
    = (Return (lp, adv, rl, bl), w') ->
  exists x, nd_data bl = [x] /\ 0 <= x /\
    (x = 0 <-> data (baseline_value w i) = data r).
Proof.
  intros Hr Hn Hwr Hwb Ht.
  destruct (train_completed _ _ _ _ _ _ _ _ _ Hr Hn Ht)
    as (d & bl0 & lp0 & wt & wl & bloss & rl0 & Hn0 & Hd & -> & _ & _ & Hs & _
        & _ & _ & _ & _ & _ & _ & _ & _ & -> & _).
  apply binop_same_shape_inv in Hd as (_ & Hd & _); try assumption.
  rewrite loss_value, pow2_data, Hd, map_pow2_sub.
  eexists. split; [reflexivity|].
  set (S := sum_list _).
  assert (Hpos : 0 < 1 / INR n).
  { apply Rdiv_lt_0_compat; [lra|]. apply lt_0_INR. lia. }
  assert (HS : 0 <= S) by apply sum_squares_nonneg.
  split; [nra|].
  assert (Hlen : length (data (baseline_value w i)) = length (data r))
    by (unfold wf_tensor in *; congruence).
  rewrite <- (sum_squares_zero _ _ Hlen). fold S.
  split; [intros H; nra | intros ->; lra].
Qed.

End Returned.

(** ** The further properties on the instance *)

Lemma completed_call_effects_witness :
  trace (snd Demo.run2) =
  trace (Demo.start2 false) ++
  [EvZeroGrad BaselineOpt; EvBackward (nd_data (result Demo.run2).2);
   EvStep BaselineOpt;
   EvZeroGrad RlOpt; EvBackward (nd_data (result Demo.run2).1.2);
   EvStep RlOpt;
   EvLog (minibatch (self (Demo.start2 false)) + 1)
     (result Demo.run2).1.2 (result Demo.run2).2].
Proof.
  exact (completed_call_effects _ _ _ _ _ _ _ (returns_result _ run2_returns)).
Defined.

Lemma train_frame_witness :
  param_data
    (snd (train (Demo.batch2 None) (Edge.start_with Demo.policy Demo.baseline)))
    !! 3%positive
  = param_data (Edge.start_with Demo.policy Demo.baseline) !! 3%positive.
Proof.
  apply (train_frame (Demo.batch2 None)
           (Edge.start_with Demo.policy Demo.baseline) 3%positive
           (reach_init Demo.policy Demo.baseline true 2 false _ _)).
  - simpl. intros [E|[]]. discriminate E.
  - simpl. intros [E|[]]. discriminate E.
Defined.

Lemma reachable_hyperparameters_witness :
  hyper (rl_opt (self (snd Demo.run2)))
    = (net_parameters (seq2slate_net (self (snd Demo.run2))), 1 / 1000, true) /\
  hyper (baseline_opt (self (snd Demo.run2)))
    = (net_parameters (baseline_net (self (snd Demo.run2))), 1 / 1000, true).
Proof.
  exact (reachable_hyperparameters _
           (reach_train _ _ (reach_init Demo.policy Demo.baseline false 2 false _ _))).
Defined.

Lemma empty_batch_raises_witness :
  train (PreprocessedTrainingBatch (RankingInput Edge.input_empty))
    (Demo.start2 true)
  = (Raise ZeroDivisionError, Demo.start2 true).
Proof.
  exact (empty_batch_raises (Demo.start2 true) Edge.input_empty
           (leaf [0%nat] []) eq_refl eq_refl).
Defined.

Lemma features_without_batch_dimension_witness :
  train (PreprocessedTrainingBatch (RankingInput Edge.input_scalar_features))
    (Demo.start2 true)
  = (Raise IndexError, Demo.start2 true).
Proof.
  exact (features_without_batch_dimension (Demo.start2 true)
           Edge.input_scalar_features eq_refl).
Defined.

Lemma unbroadcastable_reward_witness :
  train (PreprocessedTrainingBatch (RankingInput Edge.input_long_reward))
    (Demo.start2 true)
  = (Raise RuntimeError, Demo.start2 true).
Proof.
  exact (unbroadcastable_reward (Demo.start2 true) Edge.input_long_reward
           (leaf [3%nat] [1; 2; 3]) 1 eq_refl eq_refl eq_refl).
Defined.

Lemma baseline_without_grad_witness :
  train (PreprocessedTrainingBatch (RankingInput (Demo.input2 None)))
    (Edge.start_with Demo.policy Edge.frozen_baseline)
  = (Raise RuntimeError,
     zeroed BaselineOpt (Edge.start_with Demo.policy Edge.frozen_baseline)).
Proof.
  exact (baseline_without_grad
           (Edge.start_with Demo.policy Edge.frozen_baseline)
           (Demo.input2 None) (leaf [2%nat] [1; 3]) 1 [2%nat]
           eq_refl eq_refl eq_refl eq_refl eq_refl).
Defined.

Lemma frozen_policy_baseline_completes :
  is_return
    (fst (train_baseline (Demo.input2 None) (leaf [2%nat] [1; 3]) 2
            (Edge.start_with Edge.frozen_policy Demo.baseline))) = true.
Proof. vm_compute. reflexivity. Qed.

Lemma policy_without_grad_witness :
  train (PreprocessedTrainingBatch (RankingInput (Demo.input2 None)))
    (Edge.start_with Edge.frozen_policy Demo.baseline)
  = (Raise AssertionError,
     snd (train_baseline (Demo.input2 None) (leaf [2%nat] [1; 3]) 2
            (Edge.start_with Edge.frozen_policy Demo.baseline))).
Proof.
  exact (proj1 (policy_without_grad
           (Edge.start_with Edge.frozen_policy Demo.baseline)
           (Demo.input2 None) (leaf [2%nat] [1; 3]) 2
           eq_refl eq_refl frozen_policy_baseline_completes eq_refl)).
Defined.

Lemma reward_with_unit_dimension_raises_witness :
  is_return
    (fst (train (PreprocessedTrainingBatch
                   (RankingInput Edge.input_column_reward))
            (Demo.start2 true))) = false.
Proof.
  exact (reward_with_unit_dimension_raises (Demo.start2 true)
           Edge.input_column_reward (leaf [2%nat; 1%nat] [1; 3]) eq_refl
           (or_intror (or_introl eq_refl))).
Defined.

Lemma result_shapes_witness :
  shape (result Demo.run2).1.1.1 = [2%nat] /\
  shape (result Demo.run2).1.1.2 = [2%nat] /\
  requires_grad (result Demo.run2).1.1.1 = false /\
  nd_shape (result Demo.run2).1.2 = [] /\
  nd_shape (result Demo.run2).2 = [].
Proof.
  destruct (result_shapes (Demo.start2 false) (Demo.input2 (Some Demo.probs2))
              (leaf [2%nat] [1; 3]) 2 _ _ _ _ _ eq_refl eq_refl
              (returns_result _ run2_returns))
    as (H1 & H2 & _ & _ & H3 & H4 & _ & H5 & _).
  auto.
Defined.

Lemma baseline_loss_zero_iff_exact_witness :
  exists x, nd_data (result Demo.run2).2 = [x] /\ 0 <= x.
Proof.
  destruct (baseline_loss_zero_iff_exact (Demo.start2 false)
              (Demo.input2 (Some Demo.probs2)) (leaf [2%nat] [1; 3]) 2
              _ _ _ _ _ eq_refl eq_refl eq_refl run2_baseline_wf
              (returns_result _ run2_returns)) as (x & H1 & H2 & _).
  exists x. split; assumption.
Defined.

Lemma counter_counts_policy_steps_witness :
  minibatch (self (snd Demo.run2))
    = Z.of_nat (steps RlOpt (trace (snd Demo.run2))) /\
  logs (trace (snd Demo.run2)) = steps RlOpt (trace (snd Demo.run2)) /\
  (steps RlOpt (trace (snd Demo.run2))
     <= steps BaselineOpt (trace (snd Demo.run2)))%nat.
Proof.
  exact (counter_counts_policy_steps _
           (reach_train _ _ (reach_init Demo.policy Demo.baseline false 2 false _ _))).
Defined.

Lemma raised_call_keeps_policy_optimizer_witness :
  rl_opt (self (snd (train (PreprocessedTrainingBatch
                              (RankingInput Demo.input_short_reward))
                       (Demo.start2 false))))
  = rl_opt (self (Demo.start2 false)).
Proof.
  apply raised_call_keeps_policy_optimizer.
  vm_compute. reflexivity.
Defined.

Lemma probs3_baseline_completes :
  is_return
    (fst (train_baseline (Demo.input2 (Some Edge.probs3)) (leaf [2%nat] [1; 3]) 2
            (Demo.start2 false))) = true.
Proof. vm_compute. reflexivity. Qed.

Lemma unbroadcastable_behavior_probs_witness :
  train (PreprocessedTrainingBatch (RankingInput (Demo.input2 (Some Edge.probs3))))
    (Demo.start2 false)
  = (Raise RuntimeError,
     snd (train_baseline (Demo.input2 (Some Edge.probs3)) (leaf [2%nat] [1; 3]) 2
            (Demo.start2 false))).
Proof.
  exact (proj1 (unbroadcastable_behavior_probs (Demo.start2 false)
           (Demo.input2 (Some Edge.probs3)) (leaf [2%nat] [1; 3]) 2 Edge.probs3
           eq_refl eq_refl eq_refl eq_refl probs3_baseline_completes
           eq_refl eq_refl eq_refl eq_refl)).
Defined.

(** ** The off-policy loss, and the batch of one *)

(** X19. For every completed off-policy call whose reward and behavior
    probabilities have one entry per episode, in the same shape: the
    importance weight of each episode is [exp(log_prob) / tgt_out_prob],
    and the returned [rl_loss] is the mean over the batch of
    [- weight * log_prob * (reward - baseline)]. *)
Theorem off_policy_loss_of_completed_call `{TB : TorchBackend}
    w i r p n lp adv rl bl w' :
  on_policy (self w) = false ->
  slate_reward i = Some r ->
  tgt_out_probs i = Some p ->
  shape0 (state_float_features i) = Return n ->
  Shape.numel (shape r) = n ->
  shape p = shape r ->
  wf_tensor r -> wf_tensor p -> wf_tensor lp ->
  wf_tensor (baseline_value w i) ->
  train (PreprocessedTrainingBatch (RankingInput i)) w
    = (Return (lp, adv, rl, bl), w') ->
  (exists t, importance_sampling (self w) i lp = Return t /\
             shape t = shape lp /\
             data t = zip_with_R (fun l q => exp l / q) (data lp) (data p)) /\
  nd_data rl =
    [mean (episode_losses
             (zip_with_R (fun l q => exp l / q) (data lp) (data p))
             (data lp) (data r) (data (baseline_value w i)))].
Proof.
  intros Hoff Hr Hp Hn Hnum Hsp Hwr Hwp Hwlp Hwb Ht.
  destruct (off_policy_rl_loss w i r p n lp adv rl bl w'
              Hoff Hr Hp Hn Hnum Hsp Hwr Hwp Hwlp Hwb Ht) as (H1 & H2 & _).
  split; [exact H1 | exact H2].
Qed.

Lemma run2_log_probs_wf : wf_tensor (result Demo.run2).1.1.1.
Proof. vm_compute. reflexivity. Qed.

Lemma off_policy_loss_of_completed_call_witness :
  nd_data (result Demo.run2).1.2 =
    [mean (episode_losses
             (zip_with_R (fun l q => exp l / q)
                (data (result Demo.run2).1.1.1) (data Demo.probs2))
             (data (result Demo.run2).1.1.1) [1; 3]
             (data (baseline_value (Demo.start2 false)
                      (Demo.input2 (Some Demo.probs2)))))].
Proof.
  exact (proj2 (off_policy_loss_of_completed_call (Demo.start2 false)
           (Demo.input2 (Some Demo.probs2)) (leaf [2%nat] [1; 3]) Demo.probs2 2
           _ _ _ _ _
           eq_refl eq_refl eq_refl eq_refl eq_refl eq_refl eq_refl eq_refl
           run2_log_probs_wf run2_baseline_wf
           (returns_result _ run2_returns))).
Defined.

(** C1. The batch of one.  On one episode in the shapes of the data model
    (reward and behavior probability of shape (1,), log-probability
    [ln(1/2)] of shape (1,), behavior probability [1/4]), [squeeze()] has
    removed the batch dimension of [b], whose shape is () and not (1,):
    the call computes no [rl_loss].  It raises AssertionError at the shape
    assertion, the baseline optimizer has been stepped, the policy
    optimizer has not, and the step counter is still 0. *)
Theorem single_episode_batch_raises :
  shape0 (state_float_features Single.input) = Return 1%nat /\
  option_map shape (slate_reward Single.input) = Some [1%nat] /\
  option_map shape (tgt_out_probs Single.input) = Some [1%nat] /\
  option_map data (tgt_out_probs Single.input) = Some [1 / 4] /\
  on_policy (self Single.start) = false /\
  out_shape (net_forward Single.policy (param_data (snd Single.run)) Single.input)
    = [1%nat] /\
  out_data (net_forward Single.policy (param_data (snd Single.run)) Single.input)
    = [ln (1 / 2)] /\
  out_shape (net_forward Demo.baseline (param_data Single.start) Single.input)
    = [1%nat; 1%nat] /\
  shape (baseline_value Single.start Single.input) = [] /\
  fst Single.run = Raise AssertionError /\
  steps BaselineOpt (trace (snd Single.run)) = 1%nat /\
  steps RlOpt (trace (snd Single.run)) = 0%nat /\
  minibatch (self (snd Single.run)) = 0%Z.
Proof.
  repeat (split; [vm_compute; reflexivity|]). vm_compute. reflexivity.
Qed.

(** ** The errors of a reward of the wrong length *)

(** How the baseline phase ends: with the update made, with a
    ZeroDivisionError on an empty batch (line 54, before anything else),
    or with a RuntimeError of the subtraction or of [backward]. *)
Lemma train_baseline_error_kinds `{TB : TorchBackend} i r n w :
  (exists bl, train_baseline i r n w
     = (Return (baseline_value w i, bl), after_update BaselineOpt bl w))
  \/ (n = 0%nat /\ train_baseline i r n w = (Raise ZeroDivisionError, w))
  \/ (n <> 0%nat /\
      (train_baseline i r n w = (Raise RuntimeError, w) \/
       train_baseline i r n w = (Raise RuntimeError, zeroed BaselineOpt w))).
Proof.
  unfold train_baseline.
  rewrite bind_get_self, bind_get_params.
  destruct n as [|m].
  { right; left. split; [reflexivity|]. simpl float_div_int.
    rewrite bind_lift_raise_l. reflexivity. }
  destruct (float_div_int (S m)) as [e|c] eqn:Hc; [discriminate Hc|].
  rewrite bind_lift_l.
  destruct (sub _ r) as [e|d] eqn:Hd.
  { right; right. split; [discriminate|]. left. rewrite bind_lift_raise_l.
    unfold sub, binop in Hd. destruct (Shape.broadcast _ _); inversion Hd.
    reflexivity. }
  rewrite bind_lift_l. unfold zero_grad. rewrite bind_modify_l.
  unfold backward.
  destruct (requires_grad (scale c (torch_sum (pow2 d)))) eqn:Hg.
  - left. eexists. unfold opt_step. rewrite !bind_modify_l. reflexivity.
  - right; right. split; [discriminate|]. right. reflexivity.
Qed.

(** X20. When the reward does not have one entry per episode, while the
    baseline network does, the call raises one of three errors:
    AssertionError (line 63) when the baseline optimizer has been stepped
    in the call; otherwise ZeroDivisionError (line 54) exactly when the
    batch is empty, and RuntimeError (broadcasting on line 54, or
    [backward] on line 56) when it is not, no parameter value having
    changed. *)
Theorem shape_mismatch_error_kinds `{TB : TorchBackend} w i r n :
  slate_reward i = Some r ->
  shape0 (state_float_features i) = Return n ->
  Shape.numel (shape r) <> n ->
  Shape.numel
    (out_shape (net_forward (baseline_net (self w)) (param_data w) i)) = n ->
  exists e w',
    train (PreprocessedTrainingBatch (RankingInput i)) w = (Raise e, w') /\
    ((e = AssertionError /\
      steps BaselineOpt (trace w') = S (steps BaselineOpt (trace w)))
     \/ ((e = ZeroDivisionError \/ e = RuntimeError) /\
         (e = ZeroDivisionError <-> n = 0%nat) /\
         steps BaselineOpt (trace w') = steps BaselineOpt (trace w) /\
         param_data w' = param_data w)).
Proof.
  intros Hr Hn Hne Hb.
  assert (Hs : shape (baseline_value w i) <> shape r).
  { intros E. apply Hne. rewrite <- E, <- Hb. simpl. apply numel_squeeze. }
  rewrite (train_unfold i r n w Hr Hn).
  destruct (train_baseline_error_kinds i r n w)
    as [[bl ->]|[[H0 ->]|[H0 [-> | ->]]]].
  - rewrite (train_seq2slate_shape_mismatch _ _ _ _ _ Hs).
    eexists _, _. split; [reflexivity|].
    rewrite !steps_after_update. simpl. left. split; [reflexivity|lia].
  - eexists _, _. split; [reflexivity|]. right.
    split; [now left|]. split; [tauto|]. split; reflexivity.
  - eexists _, _. split; [reflexivity|]. right.
    split; [now right|]. split; [split; [discriminate|tauto]|]. split; reflexivity.
  - eexists _, _. split; [reflexivity|]. right.
    split; [now right|]. split; [split; [discriminate|tauto]|].
    rewrite !steps_zeroed. split; reflexivity.
Qed.

Lemma shape_mismatch_error_kinds_witness :
  exists e w',
    train (PreprocessedTrainingBatch (RankingInput Edge.input_long_reward))
      (Demo.start2 true) = (Raise e, w') /\
    ((e = AssertionError /\
      steps BaselineOpt (trace w')
        = S (steps BaselineOpt (trace (Demo.start2 true))))
     \/ ((e = ZeroDivisionError \/ e = RuntimeError) /\
         (e = ZeroDivisionError <-> 2%nat = 0%nat) /\
         steps BaselineOpt (trace w')
           = steps BaselineOpt (trace (Demo.start2 true)) /\
         param_data w' = param_data (Demo.start2 true))).
Proof.
  apply (shape_mismatch_error_kinds (Demo.start2 true) Edge.input_long_reward
           (leaf [3%nat] [1; 2; 3]) 2 eq_refl eq_refl); [simpl; lia | reflexivity].
Defined.
